(** * LAN version control prototype: the metadata / lock engine of [app.js]

    A shallow embedding of the request handlers of [src/app.js] that read
    and write [metadata.json], and the properties of the version and lock
    bookkeeping they implement.

    Conventions of the embedding.
    - The state is the parsed content of [metadata.json].  Every handler
      reaches it through [loadMetadata] and [saveMetadata] only, so a
      handler is a state transformer over that content which either returns
      or throws.
    - Every handler of [app.js] is synchronous (readFileSync, writeFileSync,
      no callback or promise inside a handler), so on Node's event loop a
      handler runs to completion before the next request is served.
    - [crypto]'s SHA-256 is a parameter of the development.
    - [new Date()] is an input of the request (the text the date has once
      it is written to [metadata.json]).
    - [io.emit] (the socket notification of an upload) touches no metadata
      and is left out.
    - The accounts are the parsed content of [users.json]; the whole
      application is a transformer of both files, one request at a time,
      each route behind its middlewares. *)

From stdpp Require Import gmap strings list fin_maps.
From Stdlib.Strings Require Import Byte.
From Stdlib Require Import DecimalN DecimalString.

Open Scope string_scope.
Open Scope list_scope.
Set Warnings "-register-all".

(** ** JSON values, as sent by [res.json] *)

Inductive json :=
| JNull
| JBool (b : bool)
| JNum (n : nat)
| JStr (s : string)
| JArr (l : list json)
| JObj (l : list (string * json)).

(** ** Data model of [metadata.json] *)

Record VersionRecord := {
  version : nat;
  path : string;
  hash : string;
  uploadedBy : string;
  uploadedAt : string
}.

Record FileRecord := {
  name : string;
  versions : list VersionRecord
}.

Record LockEntry := {
  lockedBy : string;
  lockedAt : string
}.

(** [files] is a JSON array, [locks] a JSON object keyed by file name. *)
Record Metadata := {
  files : list FileRecord;
  locks : gmap string LockEntry
}.

(** The fields of a record of [users.json] that the handlers read. *)
Record User := {
  username : string;
  role : string
}.

#[global] Instance VersionRecord_eq_dec : EqDecision VersionRecord.
Proof. solve_decision. Defined.
#[global] Instance FileRecord_eq_dec : EqDecision FileRecord.
Proof. solve_decision. Defined.
#[global] Instance LockEntry_eq_dec : EqDecision LockEntry.
Proof. solve_decision. Defined.

(** The store a fresh installation starts from. *)
Definition empty_metadata : Metadata := {| files := []; locks := ∅ |}.

(** ** Responses *)

Inductive Response :=
| ResJson (status : nat) (body : json)      (* res.status(..).json(..) *)
| ResDownload (file : string)               (* res.download(path) *)
| ResError (status : nat) (error : string). (* an exception reached Express *)

Definition message (m : string) : json := JObj [("message", JStr m)].

Definition version_json (v : VersionRecord) : json :=
  JObj [("version", JNum (version v)); ("path", JStr (path v));
        ("hash", JStr (hash v)); ("uploadedBy", JStr (uploadedBy v));
        ("uploadedAt", JStr (uploadedAt v))].

Definition file_json (f : FileRecord) : json :=
  JObj [("name", JStr (name f)); ("versions", JArr (version_json <$> versions f))].

(** ** Handlers as state transformers that may throw *)

Inductive outcome (A : Type) :=
| Returned (a : A)
| Thrown (e : string).
Arguments Returned {A} a.
Arguments Thrown {A} e.

Definition handler (A : Type) : Type := Metadata → outcome A * Metadata.

#[global] Instance handler_ret : MRet handler := λ A a d, (Returned a, d).
#[global] Instance handler_bind : MBind handler := λ A B k h d,
  match h d with
  | (Returned a, d') => k a d'
  | (Thrown e, d') => (Thrown e, d')
  end.

Definition throw {A} (e : string) : handler A := λ d, (Thrown e, d).

(** Express answers 500 when a handler throws; what was written to
    [metadata.json] before the exception stays written. *)
Definition serve (h : handler Response) (d : Metadata) : Response * Metadata :=
  match h d with
  | (Returned r, d') => (r, d')
  | (Thrown e, d') => (ResError 500 e, d')
  end.

(** ** Property lookup on the [locks] object

    [JSON.parse] builds [locks] as a plain object, so reading
    [meta.locks[key]] falls back to [Object.prototype] when [locks] has no
    own property [key]. *)

Definition Object_prototype : list string :=
  ["constructor"; "__defineGetter__"; "__defineSetter__"; "hasOwnProperty";
   "__lookupGetter__"; "__lookupSetter__"; "isPrototypeOf";
   "propertyIsEnumerable"; "toString"; "valueOf"; "__proto__";
   "toLocaleString"].

Inductive property :=
| Undefined
| Own (e : LockEntry)
| Inherited.   (* a function or object of Object.prototype: truthy, no lockedBy *)

Definition get_lock (l : gmap string LockEntry) (key : string) : property :=
  match l !! key with
  | Some e => Own e
  | None => if bool_decide (key ∈ Object_prototype) then Inherited else Undefined
  end.

(** [meta.locks[n] && meta.locks[n].lockedBy !== user.username] *)
Definition locked_by_other (l : gmap string LockEntry) (n : string) (u : User) : bool :=
  match get_lock l n with
  | Undefined => false
  | Own e => bool_decide (lockedBy e ≠ username u)
  | Inherited => true   (* undefined !== a string *)
  end.

(** [locks[key] = e]: an own property is created or overwritten.  The one
    exception is the key "__proto__" when [locks] has no own property of
    that name: the assignment reaches the setter that [Object.prototype]
    defines, which replaces the prototype of the object and creates no own
    property, so nothing of it is saved by [JSON.stringify]. *)
Definition set_lock (l : gmap string LockEntry) (key : string) (e : LockEntry)
    : gmap string LockEntry :=
  if bool_decide (key = "__proto__" ∧ l !! key = None) then l else <[key := e]> l.

(** ** The upload's bookkeeping on [meta.files]

    [find] returns the first record named [n]; the record is created and
    pushed when there is none; the new version is pushed on it in place. *)

Definition find_file (fs : list FileRecord) (n : string) : option (nat * FileRecord) :=
  list_find (λ f, name f = n) fs.

Definition push_version (fs : list FileRecord) (n : string)
    (mk : nat → VersionRecord) : nat * list FileRecord :=
  match find_file fs n with
  | Some (i, file) =>
      let v := length (versions file) + 1 in
      (v, <[i := {| name := name file; versions := versions file ++ [mk v] |}]> fs)
  | None =>
      let file := {| name := n; versions := [] |} in
      let v := length (versions file) + 1 in
      (v, fs ++ [{| name := name file; versions := versions file ++ [mk v] |}])
  end.

(** [file.versions.find(v => v.version == version)]: the route parameter is
    a string and [==] coerces it to a number; [wanted] is that number when
    it is a natural number, [None] otherwise (NaN, a fraction, a negative
    number equal no stored version). *)
Definition find_version (vs : list VersionRecord) (wanted : option nat) : option VersionRecord :=
  match wanted with
  | Some k => snd <$> list_find (λ v, version v = k) vs
  | None => None
  end.

(** ** Requests *)

Record UploadRequest := {
  originalname : string;   (* req.file.originalname *)
  stored_at : string;      (* req.file.path, where multer wrote the blob *)
  user : User;             (* req.user, set by the auth middleware *)
  lock_date : string;      (* new Date() in lockFile *)
  upload_date : string     (* new Date() in the version record *)
}.

(** The blob store: the files under [STORAGE_DIR], by path, as a handler
    finds them. *)
Abbreviation BlobStore := (gmap string (list byte)).

Section Handlers.

(** [crypto.createHash("sha256").update(buffer).digest("hex")] *)
Variable sha256 : list byte → string.

Definition loadMetadata : handler Metadata := λ d, (Returned d, d).

Definition saveMetadata (data : Metadata) : handler unit := λ _, (Returned (), data).

(** [fs.readFileSync] throws when the file cannot be read. *)
Definition generateHash (blobs : BlobStore) (filePath : string) : handler string :=
  match blobs !! filePath with
  | Some buffer => mret (sha256 buffer)
  | None => throw "ENOENT"
  end.

Definition lockFile (filename : string) (u : User) (now : string) : handler unit :=
  data ← loadMetadata;
  saveMetadata {| files := files data;
                  locks := set_lock (locks data) filename
                             {| lockedBy := username u; lockedAt := now |} |}.

Definition unlockFile (filename : string) : handler unit :=
  data ← loadMetadata;
  saveMetadata {| files := files data; locks := delete filename (locks data) |}.

(** The version record an upload pushes, once its number is known. *)
Definition new_version (req : UploadRequest) (h : string) (v : nat) : VersionRecord :=
  {| version := v; path := stored_at req; hash := h;
     uploadedBy := username (user req); uploadedAt := upload_date req |}.

Definition uploaded (v : nat) : Response :=
  ResJson 200 (JObj [("message", JStr "Uploaded"); ("version", JNum v)]).

Definition file_is_locked : Response := ResJson 423 (message "File is locked").

(** The part of [POST /upload] that follows [lockFile]; [meta] is the
    snapshot the handler loaded before the lock check. *)
Definition upload_locked (blobs : BlobStore) (req : UploadRequest) (meta : Metadata)
    : handler Response :=
  h ← generateHash blobs (stored_at req);
  let '(v, fs) := push_version (files meta) (originalname req) (new_version req h) in
  unlockFile (originalname req);;
  saveMetadata {| files := fs; locks := locks meta |};;
  mret (uploaded v).

(** [POST /upload] *)
Definition upload (blobs : BlobStore) (req : UploadRequest) : handler Response :=
  meta ← loadMetadata;
  if locked_by_other (locks meta) (originalname req) (user req)
  then mret file_is_locked
  else
    lockFile (originalname req) (user req) (lock_date req);;
    upload_locked blobs req meta.

(** [GET /files] *)
Definition listFiles : handler Response :=
  meta ← loadMetadata;
  mret (ResJson 200 (JArr (file_json <$> files meta))).

(** [GET /files/:name/versions] *)
Definition listVersions (n : string) : handler Response :=
  meta ← loadMetadata;
  match find_file (files meta) n with
  | None => mret (ResJson 404 (message "Not found"))
  | Some (_, file) => mret (ResJson 200 (JArr (version_json <$> versions file)))
  end.

(** [GET /download/:name/:version] *)
Definition download (n : string) (wanted : option nat) : handler Response :=
  meta ← loadMetadata;
  match find_file (files meta) n with
  | None => mret (ResJson 404 (message "Not found"))
  | Some (_, file) =>
      match find_version (versions file) wanted with
      | None => mret (ResJson 404 (message "Version not found"))
      | Some v => mret (ResDownload (path v))
      end
  end.

Definition verify_report (stored current : string) : Response :=
  ResJson 200 (JObj [("stored", JStr stored); ("current", JStr current);
                     ("valid", JBool (bool_decide (stored = current)))]).

(** [GET /verify/:name/:version] *)
Definition verify (blobs : BlobStore) (n : string) (wanted : option nat) : handler Response :=
  meta ← loadMetadata;
  match find_file (files meta) n with
  | None => mret (ResJson 404 (message "Not found"))
  | Some (_, file) =>
      match find_version (versions file) wanted with
      | None => mret (ResJson 404 (message "Version not found"))
      | Some v =>
          currentHash ← generateHash blobs (path v);
          mret (verify_report (hash v) currentHash)
      end
  end.

(** [POST /admin/unlock/:name], behind the [adminOnly] middleware *)
Definition adminUnlock (u : User) (n : string) : handler Response :=
  if bool_decide (role u ≠ "admin")
  then mret (ResJson 403 (message "Admin only"))
  else unlockFile n;; mret (ResJson 200 (message "Unlocked")).

(** ** Serving requests one after another *)

Inductive Request :=
| Upload (req : UploadRequest)
| ListFiles
| ListVersions (n : string)
| Download (n : string) (wanted : option nat)
| Verify (n : string) (wanted : option nat)
| AdminUnlock (u : User) (n : string).

Definition handle (blobs : BlobStore) (r : Request) : handler Response :=
  match r with
  | Upload req => upload blobs req
  | ListFiles => listFiles
  | ListVersions n => listVersions n
  | Download n wanted => download n wanted
  | Verify n wanted => verify blobs n wanted
  | AdminUnlock u n => adminUnlock u n
  end.

(** Each request comes with the blob store as its handler finds it (multer
    has written the uploaded blob before the handler runs). *)
Fixpoint run (reqs : list (BlobStore * Request)) (d : Metadata) : list Response * Metadata :=
  match reqs with
  | [] => ([], d)
  | (blobs, r) :: rest =>
      let '(res, d1) := serve (handle blobs r) d in
      let '(ress, d2) := run rest d1 in
      (res :: ress, d2)
  end.

End Handlers.

(** ** The invariant of the data model: [versions[i].version == i+1] *)

Definition contiguous (vs : list VersionRecord) : Prop :=
  version <$> vs = seq 1 (length vs).

Definition versions_ok (d : Metadata) : Prop :=
  Forall (λ f, contiguous (versions f)) (files d).

#[global] Instance contiguous_dec vs : Decision (contiguous vs).
Proof. unfold contiguous. apply _. Defined.
#[global] Instance versions_ok_dec d : Decision (versions_ok d).
Proof. unfold versions_ok. apply _. Defined.

(** [currentMax]: the largest version number of a record, 0 when empty. *)
Definition current_max (vs : list VersionRecord) : nat := max_list_with version vs.

(** ** Vocabulary of the specification *)

(** The versions recorded for a name: those of the first record with that
    name, none when the name is unknown. *)
Definition versions_of (d : Metadata) (n : string) : list VersionRecord :=
  match find_file (files d) n with
  | Some (_, f) => versions f
  | None => []
  end.

(** [currentMax+1], or 1 if the file is unknown. *)
Definition next_version (d : Metadata) (n : string) : nat :=
  match find_file (files d) n with
  | Some (_, f) => current_max (versions f) + 1
  | None => 1
  end.

(** The external contract of [listFiles] in the words of the
    specification: [[{name, versionCount}]]. *)
Definition summary_json (f : FileRecord) : json :=
  JObj [("name", JStr (name f)); ("versionCount", JNum (length (versions f)))].

Definition listFiles_spec (d : Metadata) : Response :=
  ResJson 200 (JArr (summary_json <$> files d)).

(** Reading the body of [GET /files] back into file records. *)
Definition version_of_json (j : json) : option VersionRecord :=
  match j with
  | JObj [("version", JNum v); ("path", JStr p); ("hash", JStr h);
          ("uploadedBy", JStr u); ("uploadedAt", JStr t)] =>
      Some {| version := v; path := p; hash := h; uploadedBy := u; uploadedAt := t |}
  | _ => None
  end.

Definition file_of_json (j : json) : option FileRecord :=
  match j with
  | JObj [("name", JStr n); ("versions", JArr vs)] =>
      vs' ← mapM version_of_json vs; Some {| name := n; versions := vs' |}
  | _ => None
  end.

Definition files_of_response (r : Response) : option (list FileRecord) :=
  match r with
  | ResJson 200 (JArr l) => mapM file_of_json l
  | _ => None
  end.

(** ** Accounts: [users.json], login and the middlewares *)

Module Users.

(** A record of the [users] array of [users.json].  [token] is absent
    until the first login, and [password] is absent ([None], which reads
    as [undefined]) in a record that has no such field.  Every record has
    its [username] and [role]: the handlers write [req.user.username] into
    the lock entries and version records. *)
Record Account := {
  username : string;
  password : option string;
  role : string;
  token : option string
}.

End Users.

#[global] Instance Account_eq_dec : EqDecision Users.Account.
Proof. solve_decision. Defined.

(** What the handlers read of [req.user]. *)
Definition req_user (a : Users.Account) : User :=
  {| username := Users.username a; role := Users.role a |}.

(** The [auth] middleware: the header [x-auth-token] ([None] when the
    request has none), then the first account carrying that token.  It
    either answers itself or passes the account on as [req.user]. *)
Definition auth (header : option string) (users : list Users.Account)
    : Response + Users.Account :=
  match header with
  | None => inl (ResJson 401 (message "No token"))
  | Some t =>
      if bool_decide (t = "") then inl (ResJson 401 (message "No token"))
      else match list_find (λ u, Users.token u = Some t) users with
           | None => inl (ResJson 401 (message "Invalid token"))
           | Some (_, u) => inr u
           end
  end.

(** [POST /auth/login]: [username] and [password] are the fields of the
    JSON body ([None], which reads as [undefined], when the body has no
    such field), compared with [===]: an absent password equals an absent
    password.  [uuid] is what [uuidv4()] returns.  The token is assigned on the record found in
    [data.users] and the whole of [data] is saved. *)
Definition login (username password : option string) (uuid : string)
    (data : list Users.Account) : Response * list Users.Account :=
  match list_find (λ u, Some (Users.username u) = username ∧
                        Users.password u = password) data with
  | None => (ResJson 401 (message "Invalid credentials"), data)
  | Some (i, u) =>
      (ResJson 200 (JObj [("token", JStr uuid); ("role", JStr (Users.role u))]),
       <[i := {| Users.username := Users.username u;
                 Users.password := Users.password u;
                 Users.role := Users.role u;
                 Users.token := Some uuid |}]> data)
  end.

(** The name multer stores an upload under:
    [Date.now() + "-" + file.originalname]. *)
Definition storage_filename (now : N) (originalname : string) : string :=
  NilEmpty.string_of_uint (N.to_uint now) +:+ "-" +:+ originalname.

(** [isLocked] *)
Definition isLocked (filename : string) : handler property :=
  data ← loadMetadata;
  mret (get_lock (locks data) filename).

Definition lock_json (e : LockEntry) : json :=
  JObj [("lockedBy", JStr (lockedBy e)); ("lockedAt", JStr (lockedAt e))].

(** The [locks] object as sent by [res.json]: one member per lock entry.
    The order of the members is not that of the JavaScript object, which
    the map does not keep. *)
Definition locks_json (l : gmap string LockEntry) : json :=
  JObj (prod_map id lock_json <$> map_to_list l).

(** [GET /admin/locks], behind the [adminOnly] middleware *)
Definition adminLocks (u : User) : handler Response :=
  if bool_decide (role u ≠ "admin")
  then mret (ResJson 403 (message "Admin only"))
  else meta ← loadMetadata; mret (ResJson 200 (locks_json (locks meta))).

(** ** The application: every route behind its middlewares *)

(** What is on disk: [metadata.json] and [users.json]. *)
Record Server := {
  metadata_json : Metadata;
  users_json : list Users.Account
}.

(** The routes behind [auth], with the parameters of the request (an
    upload comes with its file, which multer has stored at [stored_at]). *)
Inductive Call :=
| PostUpload (originalname stored_at lock_date upload_date : string)
| GetFiles
| GetVersions (n : string)
| GetDownload (n : string) (wanted : option nat)
| GetVerify (n : string) (wanted : option nat)
| GetAdminLocks
| PostAdminUnlock (n : string).

Inductive HttpRequest :=
| PostLogin (username password : option string) (uuid : string)
| WithToken (header : option string) (c : Call).

Section Application.

Variable sha256 : list byte → string.

(** The handler of a route once [auth] has set [req.user]. *)
Definition route (blobs : BlobStore) (u : User) (c : Call) : handler Response :=
  match c with
  | PostUpload n p tl tu =>
      upload sha256 blobs {| originalname := n; stored_at := p; user := u;
                             lock_date := tl; upload_date := tu |}
  | GetFiles => listFiles
  | GetVersions n => listVersions n
  | GetDownload n wanted => download n wanted
  | GetVerify n wanted => verify sha256 blobs n wanted
  | GetAdminLocks => adminLocks u
  | PostAdminUnlock n => adminUnlock u n
  end.

Definition app (blobs : BlobStore) (r : HttpRequest) (s : Server) : Response * Server :=
  match r with
  | PostLogin username password uuid =>
      let '(res, users) := login username password uuid (users_json s) in
      (res, {| metadata_json := metadata_json s; users_json := users |})
  | WithToken header c =>
      match auth header (users_json s) with
      | inl res => (res, s)
      | inr account =>
          let '(res, meta) := serve (route blobs (req_user account) c) (metadata_json s) in
          (res, {| metadata_json := meta; users_json := users_json s |})
      end
  end.

(** Requests served one after another, each with the blob store as its
    handler finds it. *)
Fixpoint app_run (reqs : list (BlobStore * HttpRequest)) (s : Server)
    : list Response * Server :=
  match reqs with
  | [] => ([], s)
  | (blobs, r) :: rest =>
      let '(res, s1) := app blobs r s in
      let '(ress, s2) := app_run rest s1 in
      (res :: ress, s2)
  end.

End Application.

(** ** Further invariants of [metadata.json] *)

(** No two file records share a name. *)
Definition names_unique (d : Metadata) : Prop := NoDup (name <$> files d).

(** Every file record has a version. *)
Definition never_empty (d : Metadata) : Prop :=
  Forall (λ f, versions f ≠ []) (files d).

(** No lock entry is stored under a property name of [Object.prototype]. *)
Definition prototype_free (d : Metadata) : Prop :=
  Forall (λ n, locks d !! n = None) Object_prototype.


(** The history of [d] is still there in [d']: every file record is in its
    place under its name, with its version records as they were and
    possibly more after them. *)
Definition history_kept (d d' : Metadata) : Prop :=
  ∀ i f, files d !! i = Some f →
    ∃ f', files d' !! i = Some f' ∧ name f' = name f ∧
          versions f `prefix_of` versions f'.

#[global] Instance names_unique_dec d : Decision (names_unique d).
Proof. unfold names_unique. apply _. Defined.
#[global] Instance never_empty_dec d : Decision (never_empty d).
Proof. unfold never_empty. apply _. Defined.
#[global] Instance prototype_free_dec d : Decision (prototype_free d).
Proof. unfold prototype_free. apply _. Defined.

(** ** Data of the examples *)

(** An injective stand-in for SHA-256: the bytes read as text. *)
Definition example_digest (buffer : list byte) : string :=
  String.string_of_list_byte buffer.

Definition alice : User := {| username := "alice"; role := "user" |}.
Definition bob : User := {| username := "bob"; role := "user" |}.
Definition root : User := {| username := "root"; role := "admin" |}.

Definition example_blobs : BlobStore :=
  {[ "storage/files/1-spec.txt" := [x68; x69];
     "storage/files/2-spec.txt" := [x68; x6f] ]}.

Definition alice_upload : UploadRequest :=
  {| originalname := "spec.txt"; stored_at := "storage/files/1-spec.txt";
     user := alice; lock_date := "2024-01-01T10:00:00.000Z";
     upload_date := "2024-01-01T10:00:00.001Z" |}.

Definition bob_upload : UploadRequest :=
  {| originalname := "spec.txt"; stored_at := "storage/files/2-spec.txt";
     user := bob; lock_date := "2024-01-01T10:00:01.000Z";
     upload_date := "2024-01-01T10:00:01.001Z" |}.

(** A file whose name is a property of [Object.prototype]. *)
Definition constructor_upload : UploadRequest :=
  {| originalname := "constructor"; stored_at := "storage/files/1-spec.txt";
     user := alice; lock_date := "2024-01-01T10:00:00.000Z";
     upload_date := "2024-01-01T10:00:00.001Z" |}.

Definition held_by (u : User) : LockEntry :=
  {| lockedBy := username u; lockedAt := "2024-01-01T09:00:00.000Z" |}.

(** [metadata.json] with [spec.txt] locked by [u] and no file yet. *)
Definition spec_locked_by (u : User) : Metadata :=
  {| files := []; locks := {[ "spec.txt" := held_by u ]} |}.

(** [metadata.json] after one upload of [spec.txt] by alice. *)
Definition one_version : Metadata :=
  {| files := [{| name := "spec.txt";
                  versions := [new_version alice_upload "hi" 1] |}];
     locks := ∅ |}.

(** [metadata.json] with two files: [spec.txt] with two versions and
    [notes.txt] with one. *)
Definition notes_blobs : BlobStore :=
  <["storage/files/3-notes.txt" := [x79; x6f]]> example_blobs.

Definition spec_record : FileRecord :=
  {| name := "spec.txt";
     versions := [new_version alice_upload "hi" 1; new_version bob_upload "ho" 2] |}.

Definition notes_v1 : VersionRecord :=
  {| version := 1; path := "storage/files/3-notes.txt"; hash := "yo";
     uploadedBy := "alice"; uploadedAt := "2024-01-01T10:00:03.001Z" |}.

Definition notes_record : FileRecord :=
  {| name := "notes.txt"; versions := [notes_v1] |}.

Definition two_files : Metadata :=
  {| files := [spec_record; notes_record]; locks := ∅ |}.

Definition bob_notes_upload : UploadRequest :=
  {| originalname := "notes.txt"; stored_at := "storage/files/2-spec.txt";
     user := bob; lock_date := "2024-01-01T10:00:04.000Z";
     upload_date := "2024-01-01T10:00:04.001Z" |}.

Definition alice_account : Users.Account :=
  {| Users.username := "alice"; Users.password := Some "wonderland";
     Users.role := "user"; Users.token := Some "token-a" |}.
Definition bob_account : Users.Account :=
  {| Users.username := "bob"; Users.password := Some "builder";
     Users.role := "user"; Users.token := None |}.
Definition root_account : Users.Account :=
  {| Users.username := "root"; Users.password := Some "toor";
     Users.role := "admin"; Users.token := Some "token-r" |}.

Definition example_users : list Users.Account :=
  [alice_account; bob_account; root_account].

(** An account whose record has no password. *)
Definition guest_account : Users.Account :=
  {| Users.username := "guest"; Users.password := None;
     Users.role := "user"; Users.token := None |}.

Definition server_with_guest : Server :=
  {| metadata_json := empty_metadata; users_json := [alice_account; guest_account] |}.

(** A fresh installation with the three accounts. *)
Definition fresh_server : Server :=
  {| metadata_json := empty_metadata; users_json := example_users |}.

Definition server_with_history : Server :=
  {| metadata_json := one_version; users_json := example_users |}.

(** bob logs in; alice and bob upload [spec.txt]; bob tries a file named
    "constructor"; alice's upload of [notes.txt] loses its blob before
    hashing; root unlocks [notes.txt]. *)
Definition example_session : list (BlobStore * HttpRequest) :=
  [(example_blobs, PostLogin (Some "bob") (Some "builder") "token-b");
   (example_blobs, WithToken (Some "token-a")
      (PostUpload "spec.txt" "storage/files/1-spec.txt"
         "2024-01-01T10:00:00.000Z" "2024-01-01T10:00:00.001Z"));
   (example_blobs, WithToken (Some "token-b")
      (PostUpload "spec.txt" "storage/files/2-spec.txt"
         "2024-01-01T10:00:01.000Z" "2024-01-01T10:00:01.001Z"));
   (example_blobs, WithToken (Some "token-b")
      (PostUpload "constructor" "storage/files/2-spec.txt"
         "2024-01-01T10:00:02.000Z" "2024-01-01T10:00:02.001Z"));
   (∅, WithToken (Some "token-a")
      (PostUpload "notes.txt" "storage/files/3-notes.txt"
         "2024-01-01T10:00:03.000Z" "2024-01-01T10:00:03.001Z"));
   (example_blobs, WithToken (Some "token-r") (PostAdminUnlock "notes.txt"))].

(** The blob of the first upload, altered afterwards. *)
Definition tampered_blobs : BlobStore :=
  <["storage/files/1-spec.txt" := [x68; x6f]]> example_blobs.

(** ** Properties *)

Section Properties.

Variable sha256 : list byte → string.

Ltac run_handler :=
  unfold mbind, handler_bind, mret, handler_ret, loadMetadata, saveMetadata, throw.

(** *** Contiguous version lists *)

Lemma contiguous_nil : contiguous [].
Proof. done. Qed.

Lemma contiguous_snoc vs v :
  contiguous vs → version v = length vs + 1 → contiguous (vs ++ [v]).
Proof.
  unfold contiguous. intros Hvs Hv.
  rewrite fmap_app, length_app, seq_app, Hvs. simpl. rewrite Hv.
  do 2 f_equal. lia.
Qed.

Lemma contiguous_lookup vs :
  contiguous vs ↔ ∀ i v, vs !! i = Some v → version v = i + 1.
Proof.
  unfold contiguous. split.
  - intros Hvs i v Hi.
    assert ((version <$> vs) !! i = Some (version v)) as Hm
      by (by rewrite list_lookup_fmap, Hi).
    rewrite Hvs in Hm. apply lookup_seq in Hm. lia.
  - intros Hall. apply list_eq. intros i.
    rewrite list_lookup_fmap.
    destruct (vs !! i) as [v|] eqn:Hi; simpl.
    + symmetry. apply lookup_seq. split; [rewrite (Hall i v Hi); lia|].
      by apply lookup_lt_Some in Hi.
    + symmetry. apply lookup_ge_None. rewrite length_seq.
      by apply lookup_ge_None in Hi.
Qed.

Lemma current_max_snoc vs v :
  current_max (vs ++ [v]) = current_max vs `max` version v.
Proof.
  unfold current_max. induction vs as [|w vs IH]; simpl; [lia|].
  rewrite IH. lia.
Qed.

Lemma contiguous_current_max vs : contiguous vs → current_max vs = length vs.
Proof.
  induction vs as [|v vs IH] using rev_ind; [done|].
  intros Hc. pose proof Hc as Hl. unfold contiguous in Hc.
  rewrite fmap_app, length_app, seq_app in Hc. simpl in Hc.
  apply app_inj_1 in Hc as [Hvs Hv]; [|by rewrite length_fmap, length_seq].
  rewrite current_max_snoc, (IH Hvs), length_app. simpl.
  injection Hv as Hv. lia.
Qed.

Lemma contiguous_NoDup vs : contiguous vs → NoDup (version <$> vs).
Proof. unfold contiguous. intros ->. apply NoDup_seq. Qed.

(** *** [find] on [meta.files] and on [file.versions] *)

Lemma find_file_Some fs n i f :
  find_file fs n = Some (i, f) ↔
  fs !! i = Some f ∧ name f = n ∧ ∀ j g, fs !! j = Some g → j < i → name g ≠ n.
Proof. unfold find_file. by rewrite list_find_Some. Qed.

Lemma find_file_None fs n :
  find_file fs n = None ↔ ∀ f, f ∈ fs → name f ≠ n.
Proof.
  unfold find_file. rewrite list_find_None, Forall_forall. done.
Qed.

Lemma find_version_None vs k :
  find_version vs (Some k) = None ↔ ∀ v, v ∈ vs → version v ≠ k.
Proof.
  unfold find_version. rewrite fmap_None, list_find_None, Forall_forall. done.
Qed.

Lemma find_version_elem vs wanted v :
  find_version vs wanted = Some v → v ∈ vs ∧ wanted = Some (version v).
Proof.
  unfold find_version. destruct wanted as [k|]; [|done].
  intros Hf. apply fmap_Some in Hf as ([i w] & Hf & ->).
  apply list_find_Some in Hf as (Hi & Hk & _). simpl.
  split; [by eapply list_elem_of_lookup_2|by rewrite Hk].
Qed.

(** With version numbers unique in the record, every stored version is the
    one its own number selects. *)
Lemma find_version_stored vs v :
  NoDup (version <$> vs) → v ∈ vs → find_version vs (Some (version v)) = Some v.
Proof.
  intros Hnd Hin. unfold find_version.
  apply list_elem_of_lookup in Hin as [i Hi].
  destruct (list_find (λ w, version w = version v) vs) as [[j w]|] eqn:Hf.
  - apply list_find_Some in Hf as (Hj & Hw & _). simpl. f_equal.
    assert (j = i) as ->; [|congruence].
    eapply NoDup_lookup; [exact Hnd| |]; rewrite list_lookup_fmap.
    + by rewrite Hj; simpl; rewrite Hw.
    + by rewrite Hi.
  - apply list_find_None in Hf. rewrite Forall_forall in Hf.
    exfalso. eapply Hf; [by eapply list_elem_of_lookup_2|done].
Qed.

(** *** Assignment to the [locks] object *)

Lemma set_lock_own l n e :
  n ≠ "__proto__" ∨ is_Some (l !! n) → set_lock l n e = <[n := e]> l.
Proof.
  intros Hn. unfold set_lock. rewrite bool_decide_eq_false_2; [done|].
  intros [-> Hnone]. destruct Hn as [Hn|[e' He']]; [done|congruence].
Qed.

Lemma set_lock_proto l e : l !! "__proto__" = None → set_lock l "__proto__" e = l.
Proof. intros Hn. unfold set_lock. by rewrite bool_decide_eq_true_2. Qed.

Lemma set_lock_checked l n u e :
  locked_by_other l n u = false → set_lock l n e = <[n := e]> l.
Proof.
  intros Hl. apply set_lock_own.
  destruct (l !! n) as [e'|] eqn:Hn; [by right|]. left. intros ->.
  unfold locked_by_other, get_lock in Hl. by rewrite Hn in Hl.
Qed.

(** *** What a run of each handler amounts to *)

Lemma upload_run blobs req d :
  upload sha256 blobs req d =
    if locked_by_other (locks d) (originalname req) (user req)
    then (Returned file_is_locked, d)
    else match blobs !! stored_at req with
         | None =>
             (Thrown "ENOENT",
              {| files := files d;
                 locks := <[originalname req :=
                              {| lockedBy := username (user req);
                                 lockedAt := lock_date req |}]> (locks d) |})
         | Some buffer =>
             let '(v, fs) := push_version (files d) (originalname req)
                               (new_version req (sha256 buffer)) in
             (Returned (uploaded v), {| files := fs; locks := locks d |})
         end.
Proof.
  unfold upload, upload_locked, lockFile, unlockFile, generateHash. run_handler.
  destruct (locked_by_other _ _ _) eqn:Hl; [done|].
  destruct (blobs !! stored_at req); [by destruct (push_version _ _ _)|].
  unfold throw. cbn [files locks]. by rewrite (set_lock_checked _ _ _ _ Hl).
Qed.

Lemma unlockFile_run n d :
  unlockFile n d = (Returned (), {| files := files d; locks := delete n (locks d) |}).
Proof. done. Qed.

Lemma lockFile_run n u now d :
  lockFile n u now d =
    (Returned (), {| files := files d;
                     locks := set_lock (locks d) n
                                {| lockedBy := username u; lockedAt := now |} |}).
Proof. done. Qed.

(** Where the lock check of [upload] passed, the assignment creates or
    overwrites the entry. *)
Lemma lockFile_checked n u u' now d :
  locked_by_other (locks d) n u' = false →
  lockFile n u now d =
    (Returned (), {| files := files d;
                     locks := <[n := {| lockedBy := username u; lockedAt := now |}]> (locks d) |}).
Proof. intros Hl. by rewrite lockFile_run, (set_lock_checked _ _ _ _ Hl). Qed.

Lemma listFiles_run d :
  serve listFiles d = (ResJson 200 (JArr (file_json <$> files d)), d).
Proof. done. Qed.

Lemma listVersions_state n d : snd (serve (listVersions n) d) = d.
Proof.
  unfold serve, listVersions. run_handler.
  by destruct (find_file (files d) n) as [[i f]|].
Qed.

Lemma download_state n wanted d : snd (serve (download n wanted) d) = d.
Proof.
  unfold serve, download. run_handler.
  destruct (find_file (files d) n) as [[i f]|]; [|done].
  by destruct (find_version (versions f) wanted).
Qed.

Lemma verify_run blobs n wanted d :
  serve (verify sha256 blobs n wanted) d =
    (match find_file (files d) n with
     | None => ResJson 404 (message "Not found")
     | Some (_, f) =>
         match find_version (versions f) wanted with
         | None => ResJson 404 (message "Version not found")
         | Some v =>
             match blobs !! path v with
             | Some buffer => verify_report (hash v) (sha256 buffer)
             | None => ResError 500 "ENOENT"
             end
         end
     end, d).
Proof.
  unfold serve, verify, generateHash. run_handler.
  destruct (find_file (files d) n) as [[i f]|]; [|done].
  destruct (find_version (versions f) wanted) as [v|]; [|done].
  by destruct (blobs !! path v).
Qed.

Lemma verify_state blobs n wanted d : snd (serve (verify sha256 blobs n wanted) d) = d.
Proof. by rewrite verify_run. Qed.

Lemma adminUnlock_files u n d : files (snd (serve (adminUnlock u n) d)) = files d.
Proof. unfold serve, adminUnlock, unlockFile. run_handler. by case_bool_decide. Qed.

(** *** The bookkeeping of [push_version] *)

Lemma push_version_new fs n mk :
  find_file fs n = None →
  push_version fs n mk = (1, fs ++ [{| name := n; versions := [mk 1] |}]).
Proof. unfold push_version. by intros ->. Qed.

Lemma push_version_existing fs n mk i f :
  find_file fs n = Some (i, f) →
  push_version fs n mk =
    (length (versions f) + 1,
     <[i := {| name := n; versions := versions f ++ [mk (length (versions f) + 1)] |}]> fs).
Proof.
  unfold push_version. intros Hf. rewrite Hf.
  apply find_file_Some in Hf as (_ & -> & _). done.
Qed.

Lemma push_version_contiguous fs n mk :
  (∀ v, version (mk v) = v) →
  Forall (λ f, contiguous (versions f)) fs →
  Forall (λ f, contiguous (versions f)) (push_version fs n mk).2.
Proof.
  intros Hmk Hfs.
  destruct (find_file fs n) as [[i f]|] eqn:Hf.
  - rewrite (push_version_existing _ _ _ _ _ Hf). simpl.
    apply find_file_Some in Hf as (Hi & _ & _).
    apply Forall_insert; [done|]. simpl.
    apply contiguous_snoc; [|by rewrite Hmk].
    by eapply (Forall_lookup_1 _ _ _ _ Hfs).
  - rewrite (push_version_new _ _ _ Hf). simpl.
    apply Forall_app. split; [done|].
    apply Forall_singleton. simpl. unfold contiguous. simpl. by rewrite Hmk.
Qed.

(** *** The invariant along a run *)

Lemma upload_versions_ok blobs req d :
  versions_ok d → versions_ok (serve (upload sha256 blobs req) d).2.
Proof.
  unfold versions_ok, serve. rewrite upload_run. intros Hd.
  destruct (locked_by_other _ _ _); [done|].
  destruct (blobs !! stored_at req) as [buffer|]; [|done].
  pose proof (push_version_contiguous (files d) (originalname req)
                (new_version req (sha256 buffer)) (λ _, eq_refl) Hd) as Hp.
  by destruct (push_version _ _ _).
Qed.

Lemma handle_versions_ok blobs r d :
  versions_ok d → versions_ok (serve (handle sha256 blobs r) d).2.
Proof.
  destruct r as [req| |n|n w|n w|u n]; simpl.
  - apply upload_versions_ok.
  - done.
  - by rewrite listVersions_state.
  - by rewrite download_state.
  - by rewrite verify_state.
  - unfold versions_ok. by rewrite adminUnlock_files.
Qed.

Lemma run_versions_ok reqs d :
  versions_ok d → versions_ok (run sha256 reqs d).2.
Proof.
  revert d. induction reqs as [|[blobs r] reqs IH]; intros d Hd; [done|].
  simpl. pose proof (handle_versions_ok blobs r d Hd) as H1.
  destruct (serve (handle sha256 blobs r) d) as [res d1]. simpl in H1.
  specialize (IH d1 H1). by destruct (run sha256 reqs d1).
Qed.

(** *** Lock lookups *)

Lemma get_lock_Undefined l n :
  get_lock l n = Undefined ↔ l !! n = None ∧ n ∉ Object_prototype.
Proof.
  unfold get_lock. destruct (l !! n) as [e|].
  - split; [intros [=]|intros [[=] _]].
  - case_bool_decide as Hin; split; try done.
    intros [_ Hout]. contradiction.
Qed.

Lemma locked_by_other_Undefined l n u :
  get_lock l n = Undefined → locked_by_other l n u = false.
Proof. unfold locked_by_other. by intros ->. Qed.

Lemma locked_by_other_holder l n u e :
  l !! n = Some e → locked_by_other l n u = bool_decide (lockedBy e ≠ username u).
Proof. unfold locked_by_other, get_lock. by intros ->. Qed.

Lemma Metadata_eta d : {| files := files d; locks := locks d |} = d.
Proof. by destruct d. Qed.

(** What a successful upload went through. *)
Lemma upload_success_inv blobs req d v :
  (serve (upload sha256 blobs req) d).1 = uploaded v →
  locked_by_other (locks d) (originalname req) (user req) = false ∧
  ∃ buffer fs,
    blobs !! stored_at req = Some buffer ∧
    push_version (files d) (originalname req) (new_version req (sha256 buffer)) = (v, fs) ∧
    (serve (upload sha256 blobs req) d).2 = {| files := fs; locks := locks d |}.
Proof.
  unfold serve. rewrite upload_run.
  destruct (locked_by_other _ _ _); [done|].
  destruct (blobs !! stored_at req) as [buffer|]; [|done].
  destruct (push_version _ _ _) as [w fs] eqn:Hp. simpl.
  intros [= ->]. split; [done|]. by exists buffer, fs.
Qed.

(** When hashing throws, the request ends between [lockFile] and
    [unlockFile]: Express answers 500 and the lock stays. *)
Lemma upload_hash_failure blobs req d :
  locked_by_other (locks d) (originalname req) (user req) = false →
  blobs !! stored_at req = None →
  serve (upload sha256 blobs req) d =
    (ResError 500 "ENOENT", (lockFile (originalname req) (user req) (lock_date req) d).2).
Proof.
  intros Hl Hb. unfold serve.
  by rewrite upload_run, Hb, (lockFile_checked _ _ _ _ _ Hl), Hl.
Qed.

(** The last [saveMetadata(meta)] writes the [locks] of the snapshot loaded
    before [lockFile]: a successful upload leaves [locks] as it found it. *)
Lemma upload_success_locks blobs req d v :
  (serve (upload sha256 blobs req) d).1 = uploaded v →
  locks (serve (upload sha256 blobs req) d).2 = locks d.
Proof. intros (_ & buffer & fs & _ & _ & ->)%upload_success_inv. done. Qed.

(** Past the lock check the handler continues from the store [lockFile]
    wrote, in which the caller holds the lock. *)
Lemma upload_acquires blobs req d :
  get_lock (locks d) (originalname req) = Undefined ∨
  (∃ e, locks d !! originalname req = Some e ∧ lockedBy e = username (user req)) →
  let locked := (lockFile (originalname req) (user req) (lock_date req) d).2 in
  upload sha256 blobs req d = upload_locked sha256 blobs req d locked ∧
  locks locked !! originalname req =
    Some {| lockedBy := username (user req); lockedAt := lock_date req |}.
Proof.
  intros Hfree.
  assert (locked_by_other (locks d) (originalname req) (user req) = false) as Hl.
  { destruct Hfree as [Hu|(e & He & Hh)].
    - by apply locked_by_other_Undefined.
    - rewrite (locked_by_other_holder _ _ _ _ He).
      by apply bool_decide_eq_false_2; intros ?. }
  cbn zeta. split.
  - unfold upload. run_handler. by rewrite Hl.
  - rewrite (lockFile_checked _ _ _ _ _ Hl). cbn [snd locks]. apply lookup_insert_eq.
Qed.

Lemma upload_unlocked_succeeds blobs req d buffer :
  get_lock (locks d) (originalname req) = Undefined →
  blobs !! stored_at req = Some buffer →
  ∃ v, (serve (upload sha256 blobs req) d).1 = uploaded v.
Proof.
  intros Hu Hb. unfold serve.
  rewrite upload_run, (locked_by_other_Undefined _ _ _ Hu), Hb.
  destruct (push_version _ _ _) as [v fs]. simpl. eauto.
Qed.

(** C1 (amended): an upload that finds no lock for the name (the lookup
    [meta.locks[name]] is undefined) leaves no lock entry for the name when
    its blob can be hashed, and then succeeds; when hashing throws, the
    request is answered 500 and the lock it took stays, held by the
    caller. *)
Theorem upload_releases_lock blobs req d :
  get_lock (locks d) (originalname req) = Undefined →
  match blobs !! stored_at req with
  | Some _ =>
      (∃ v, (serve (upload sha256 blobs req) d).1 = uploaded v) ∧
      locks (serve (upload sha256 blobs req) d).2 !! originalname req = None
  | None =>
      (serve (upload sha256 blobs req) d).1 = ResError 500 "ENOENT" ∧
      locks (serve (upload sha256 blobs req) d).2 !! originalname req =
        Some {| lockedBy := username (user req); lockedAt := lock_date req |}
  end.
Proof.
  intros Hu. pose proof Hu as [Hn _]%get_lock_Undefined.
  destruct (blobs !! stored_at req) as [buffer|] eqn:Hb.
  - destruct (upload_unlocked_succeeds blobs req d buffer Hu Hb) as [v Hv].
    split; [by exists v|].
    by rewrite (upload_success_locks _ _ _ _ Hv).
  - rewrite (upload_hash_failure _ _ _ (locked_by_other_Undefined _ _ _ Hu) Hb).
    split; [done|].
    rewrite (lockFile_checked _ _ _ _ _ (locked_by_other_Undefined _ _ (user req) Hu)).
    cbn [snd locks]. apply lookup_insert_eq.
Qed.

(** C3 (amended): an upload of a name locked by another principal is
    answered 423 with the fixed message "File is locked", which does not
    name the holder, and [metadata.json] is left as it was. *)
Theorem upload_conflict_rejected blobs req d e :
  locks d !! originalname req = Some e →
  lockedBy e ≠ username (user req) →
  serve (upload sha256 blobs req) d = (ResJson 423 (JObj [("message", JStr "File is locked")]), d).
Proof.
  intros He Hne. unfold serve. rewrite upload_run, (locked_by_other_holder _ _ _ _ He).
  by rewrite bool_decide_eq_true_2.
Qed.

(** C7: [unlockFile] never throws and removes the lock entry whoever holds
    it; on a name without lock entry it changes nothing; unlocking twice is
    unlocking once; the admin route answers 200 and does what [unlockFile]
    does. *)
Theorem release_idempotent u n d :
  role u = "admin" →
  (unlockFile n d).1 = Returned () ∧
  locks (unlockFile n d).2 !! n = None ∧
  (locks d !! n = None → (unlockFile n d).2 = d) ∧
  (unlockFile n (unlockFile n d).2).2 = (unlockFile n d).2 ∧
  serve (adminUnlock u n) d = (ResJson 200 (message "Unlocked"), (unlockFile n d).2).
Proof.
  intros Hadmin. rewrite !unlockFile_run. simpl. split_and!.
  - done.
  - apply lookup_delete_eq.
  - intros Hn. rewrite delete_id by done. apply Metadata_eta.
  - by rewrite delete_delete_eq.
  - unfold serve, adminUnlock, unlockFile. run_handler.
    by rewrite bool_decide_eq_false_2 by (by intros ?).
Qed.

(** *** Versions recorded for a name, before and after a push *)

Lemma find_file_push fs n mk :
  ∃ i, find_file (push_version fs n mk).2 n =
         Some (i, {| name := n;
                     versions := versions_of {| files := fs; locks := ∅ |} n
                                 ++ [mk (push_version fs n mk).1] |}).
Proof.
  unfold versions_of. simpl.
  destruct (find_file fs n) as [[i f]|] eqn:Hf.
  - rewrite (push_version_existing _ _ _ _ _ Hf). simpl. exists i.
    apply find_file_Some in Hf as (Hi & Hn & Hlt).
    apply find_file_Some. split_and!; [|done|].
    + apply list_lookup_insert_eq. by eapply lookup_lt_Some.
    + intros j g Hj Hji. rewrite list_lookup_insert_ne in Hj by lia. eauto.
  - rewrite (push_version_new _ _ _ Hf). simpl. exists (length fs).
    apply find_file_Some. split_and!; [|done|].
    + by rewrite lookup_app_r, Nat.sub_diag.
    + intros j g Hj Hlt. rewrite lookup_app_l in Hj by done.
      eapply find_file_None; [exact Hf|]. by eapply list_elem_of_lookup_2.
Qed.

Lemma push_version_number fs n mk :
  (push_version fs n mk).1 = length (versions_of {| files := fs; locks := ∅ |} n) + 1.
Proof.
  unfold versions_of. simpl.
  destruct (find_file fs n) as [[i f]|] eqn:Hf.
  - by rewrite (push_version_existing _ _ _ _ _ Hf).
  - by rewrite (push_version_new _ _ _ Hf).
Qed.

Lemma versions_of_files d l n :
  versions_of {| files := files d; locks := l |} n = versions_of d n.
Proof. done. Qed.

Lemma next_version_length d n :
  versions_ok d → next_version d n = length (versions_of d n) + 1.
Proof.
  unfold versions_ok, next_version, versions_of. intros Hd.
  destruct (find_file (files d) n) as [[i f]|] eqn:Hf; [|done].
  apply find_file_Some in Hf as (Hi & _ & _).
  rewrite contiguous_current_max; [done|].
  by eapply (Forall_lookup_1 _ _ _ _ Hd).
Qed.

(** A successful upload, seen from the versions recorded for its name. *)
Lemma upload_success_versions blobs req d v :
  (serve (upload sha256 blobs req) d).1 = uploaded v →
  let d' := (serve (upload sha256 blobs req) d).2 in
  v = length (versions_of d (originalname req)) + 1 ∧
  is_Some (find_file (files d') (originalname req)) ∧
  ∃ h, versions_of d' (originalname req) =
         versions_of d (originalname req) ++ [new_version req h v].
Proof.
  intros (_ & buffer & fs & _ & Hp & ->)%upload_success_inv. simpl.
  pose proof (push_version_number (files d) (originalname req)
                (new_version req (sha256 buffer))) as Hv.
  destruct (find_file_push (files d) (originalname req)
              (new_version req (sha256 buffer))) as [i Hi].
  rewrite Hp in Hv, Hi. simpl in Hv, Hi. rewrite versions_of_files in Hv, Hi.
  split_and!; [done|by rewrite Hi|].
  exists (sha256 buffer). unfold versions_of at 1. simpl. by rewrite Hi.
Qed.

Lemma max_list_versions vs : max_list (version <$> vs) = current_max vs.
Proof.
  unfold current_max. induction vs as [|w vs IH]; [done|].
  rewrite fmap_cons. cbn [max_list_with]. by rewrite IH.
Qed.

(** What a successful upload does to [meta.files], told without [find]. *)
Lemma upload_success_files blobs req d v :
  (serve (upload sha256 blobs req) d).1 = uploaded v →
  ∃ buffer, blobs !! stored_at req = Some buffer ∧
    (((∀ f, f ∈ files d → name f ≠ originalname req) ∧
      v = 1 ∧
      files (serve (upload sha256 blobs req) d).2 =
        files d ++
        [{| name := originalname req;
            versions := [{| version := 1; path := stored_at req;
                            hash := sha256 buffer;
                            uploadedBy := username (user req);
                            uploadedAt := upload_date req |}] |}]) ∨
     (∃ i f,
        files d !! i = Some f ∧ name f = originalname req ∧
        (∀ j g, files d !! j = Some g → j < i → name g ≠ originalname req) ∧
        v = length (versions f) + 1 ∧
        files (serve (upload sha256 blobs req) d).2 =
          <[i := {| name := originalname req;
                    versions := versions f ++
                      [{| version := v; path := stored_at req;
                          hash := sha256 buffer;
                          uploadedBy := username (user req);
                          uploadedAt := upload_date req |}] |}]> (files d))).
Proof.
  intros (_ & buffer & fs & Hb & Hp & ->)%upload_success_inv. cbn [files].
  exists buffer. split; [done|].
  destruct (find_file (files d) (originalname req)) as [[i f]|] eqn:Hf.
  - right. exists i, f.
    rewrite (push_version_existing _ _ _ _ _ Hf) in Hp. injection Hp as <- <-.
    apply find_file_Some in Hf as (Hi & Hn & Hfirst). done.
  - left. rewrite (push_version_new _ _ _ Hf) in Hp. injection Hp as <- <-.
    split; [by apply find_file_None|done].
Qed.

(** C2: from a store whose version lists are contiguous and 1-based (the
    empty store is one), every store reached by serving requests has
    [versions[i].version = i+1] in every file record; and a successful
    upload either finds no record with the name, is assigned 1 and pushes
    a record with that one version after the others, or is assigned
    [currentMax+1] of the first record with the name and appends the
    version with that number to it, all else in [files] being as it was. *)
Theorem versions_contiguous_1_based blobs req d :
  versions_ok d →
  (∀ reqs f i v, f ∈ files (run sha256 reqs d).2 →
                 versions f !! i = Some v → version v = i + 1) ∧
  (∀ v, (serve (upload sha256 blobs req) d).1 = uploaded v →
     ∃ buffer, blobs !! stored_at req = Some buffer ∧
       (((∀ f, f ∈ files d → name f ≠ originalname req) ∧
         v = 1 ∧
         files (serve (upload sha256 blobs req) d).2 =
           files d ++
           [{| name := originalname req;
               versions := [{| version := 1; path := stored_at req;
                               hash := sha256 buffer;
                               uploadedBy := username (user req);
                               uploadedAt := upload_date req |}] |}]) ∨
        (∃ i f,
           files d !! i = Some f ∧ name f = originalname req ∧
           (∀ j g, files d !! j = Some g → j < i → name g ≠ originalname req) ∧
           v = max_list (version <$> versions f) + 1 ∧
           files (serve (upload sha256 blobs req) d).2 =
             <[i := {| name := originalname req;
                       versions := versions f ++
                         [{| version := v; path := stored_at req;
                             hash := sha256 buffer;
                             uploadedBy := username (user req);
                             uploadedAt := upload_date req |}] |}]> (files d)))).
Proof.
  intros Hd. split.
  - intros reqs f i v Hf Hi.
    pose proof (run_versions_ok reqs d Hd) as Hok.
    unfold versions_ok in Hok. rewrite Forall_forall in Hok.
    by apply (contiguous_lookup (versions f)); [apply Hok|].
  - intros v Hv.
    destruct (upload_success_files blobs req d v Hv)
      as (buffer & Hb & [Hnew|(i & f & Hi & Hn & Hfirst & Hlen & Hfs)]).
    + exists buffer. split; [done|]. by left.
    + exists buffer. split; [done|]. right. exists i, f. split_and!; [done..| |done].
      assert (contiguous (versions f)) as Hc
        by (by eapply (Forall_lookup_1 _ _ _ _ Hd)).
      by rewrite Hlen, max_list_versions, (contiguous_current_max _ Hc).
Qed.

(** *** Uploads served one after another *)

Lemma upload_unlocked_step blobs req d buffer :
  get_lock (locks d) (originalname req) = Undefined →
  blobs !! stored_at req = Some buffer →
  ∃ d', serve (upload sha256 blobs req) d =
          (uploaded (length (versions_of d (originalname req)) + 1), d') ∧
        locks d' = locks d ∧
        length (versions_of d' (originalname req)) =
          length (versions_of d (originalname req)) + 1.
Proof.
  intros Hu Hb.
  destruct (upload_unlocked_succeeds blobs req d buffer Hu Hb) as [v Hv].
  pose proof (upload_success_locks _ _ _ _ Hv) as Hl.
  pose proof (upload_success_versions _ _ _ _ Hv) as (-> & _ & h & Hvs).
  destruct (serve (upload sha256 blobs req) d) as [res d'] eqn:Hs.
  simpl in *. subst res. exists d'. split_and!; [done..|].
  rewrite Hvs, length_app. simpl. lia.
Qed.

(** C4 (amended): handlers run to completion one at a time, so uploads of
    one name are served in turn; when the lookup of the lock is undefined
    at the start and every blob can be hashed, all N uploads succeed, none
    is answered "File is locked", and the k-th served is assigned the
    version number count+k: each number is assigned once. *)
Theorem uploads_in_turn_all_succeed (reqs : list (BlobStore * UploadRequest)) n d :
  get_lock (locks d) n = Undefined →
  Forall (λ br, originalname br.2 = n ∧ is_Some (br.1 !! stored_at br.2)) reqs →
  (run sha256 ((λ br, (br.1, Upload br.2)) <$> reqs) d).1 =
    (λ k, uploaded (length (versions_of d n) + k)) <$> seq 1 (length reqs).
Proof.
  revert d. induction reqs as [|[blobs req] reqs IH]; intros d Hu Hall; [done|].
  apply Forall_cons in Hall as [[Hn [buffer Hb]] Hall]. simpl in Hn, Hb. subst n.
  destruct (upload_unlocked_step blobs req d buffer Hu Hb) as (d' & Hs & Hl & Hlen).
  rewrite fmap_cons. simpl. rewrite Hs.
  rewrite <-Hl in Hu. specialize (IH d' Hu Hall).
  destruct (run sha256 _ d') as [ress d'']. simpl in *.
  f_equal. rewrite IH, Hlen, <-(fmap_S_seq 1), <-list_fmap_compose.
  apply list_fmap_ext. intros i k _. simpl. f_equal. lia.
Qed.

(** *** Integrity check *)


(** X20: [verify] after an upload: the stored hash is the digest of the blob as
    uploaded, whatever the blob has become; [valid] is true while the blob
    is what it was and false once its digest differs. *)
Lemma verify_after_upload blobs blobs' req d v buffer buffer' :
  versions_ok d →
  (serve (upload sha256 blobs req) d).1 = uploaded v →
  blobs !! stored_at req = Some buffer →
  blobs' !! stored_at req = Some buffer' →
  (serve (verify sha256 blobs' (originalname req) (Some v))
         (serve (upload sha256 blobs req) d).2).1 =
    ResJson 200 (JObj [("stored", JStr (sha256 buffer));
                       ("current", JStr (sha256 buffer'));
                       ("valid", JBool (bool_decide (sha256 buffer = sha256 buffer')))]).
Proof.
  intros Hd Hv Hb Hb'.
  pose proof (upload_versions_ok blobs req d Hd) as Hok.
  destruct (upload_success_inv _ _ _ _ Hv) as (_ & buffer0 & fs & Hb0 & Hp & Hd').
  assert (buffer0 = buffer) as -> by congruence.
  destruct (find_file_push (files d) (originalname req)
              (new_version req (sha256 buffer))) as [i Hi].
  rewrite Hp in Hi. simpl in Hi.
  rewrite Hd' in *. rewrite verify_run. cbn [fst files]. rewrite Hi.
  set (file := {| name := originalname req; versions := _ |}) in *.
  assert (contiguous (versions file)) as Hc.
  { apply find_file_Some in Hi as (Hi & _).
    by eapply (Forall_lookup_1 _ _ _ _ Hok). }
  pose proof (find_version_stored (versions file) (new_version req (sha256 buffer) v)
                (contiguous_NoDup _ Hc)) as Hfv.
  change (version (new_version req (sha256 buffer) v)) with v in Hfv.
  rewrite Hfv by (apply elem_of_app; right; by apply list_elem_of_singleton).
  simpl. by rewrite Hb'.
Qed.

(** *** Listing and download *)

Lemma listVersions_run n d :
  serve (listVersions n) d =
    (match find_file (files d) n with
     | None => ResJson 404 (message "Not found")
     | Some (_, f) => ResJson 200 (JArr (version_json <$> versions f))
     end, d).
Proof.
  unfold serve, listVersions. run_handler.
  by destruct (find_file (files d) n) as [[i f]|].
Qed.

Lemma download_run n wanted d :
  serve (download n wanted) d =
    (match find_file (files d) n with
     | None => ResJson 404 (message "Not found")
     | Some (_, f) =>
         match find_version (versions f) wanted with
         | None => ResJson 404 (message "Version not found")
         | Some v => ResDownload (path v)
         end
     end, d).
Proof.
  unfold serve, download. run_handler.
  destruct (find_file (files d) n) as [[i f]|]; [|done].
  by destruct (find_version (versions f) wanted).
Qed.

(** C8: [listVersions] answers "Not found" exactly when no file record has
    the name and otherwise sends the version records of the file (the
    first record with the name); [download] answers "Not found" for an
    unknown name, "Version not found" when the file has no record with the
    version number, and otherwise sends the blob at the stored path of the
    first record with that number; both leave [metadata.json] as it was. *)
Theorem list_and_download_answers n k d :
  (serve (listVersions n) d = (ResJson 404 (JObj [("message", JStr "Not found")]), d)
     ↔ ∀ f, f ∈ files d → name f ≠ n) ∧
  ((∀ f, f ∈ files d → name f ≠ n) →
     serve (download n (Some k)) d = (ResJson 404 (JObj [("message", JStr "Not found")]), d)) ∧
  (∀ i f, files d !! i = Some f → name f = n →
     (∀ j g, files d !! j = Some g → j < i → name g ≠ n) →
     serve (listVersions n) d = (ResJson 200 (JArr (version_json <$> versions f)), d) ∧
     ((∀ v, v ∈ versions f → version v ≠ k) →
        serve (download n (Some k)) d =
          (ResJson 404 (JObj [("message", JStr "Version not found")]), d)) ∧
     (∀ m v, versions f !! m = Some v → version v = k →
        (∀ m' w, versions f !! m' = Some w → m' < m → version w ≠ k) →
        serve (download n (Some k)) d = (ResDownload (path v), d))).
Proof.
  rewrite listVersions_run, download_run. split_and!.
  - rewrite <-find_file_None.
    destruct (find_file (files d) n) as [[i f]|]; [|done].
    split; [intros [=]|done].
  - by intros ->%find_file_None.
  - intros i f Hi Hn Hfirst.
    assert (find_file (files d) n = Some (i, f)) as -> by (by apply find_file_Some).
    split_and!.
    + done.
    + by intros ->%find_version_None.
    + intros m v Hm Hk Hfirstv.
      assert (find_version (versions f) (Some k) = Some v) as ->; [|done].
      unfold find_version.
      assert (list_find (λ w, version w = k) (versions f) = Some (m, v)) as ->; [|done].
      by apply list_find_Some.
Qed.

(** *** Listing the files *)

Lemma version_of_json_version_json v : version_of_json (version_json v) = Some v.
Proof. by destruct v. Qed.

Lemma file_of_json_file_json f : file_of_json (file_json f) = Some f.
Proof.
  destruct f as [n vs]. unfold file_json, file_of_json. simpl.
  by rewrite (mapM_fmap_Some _ _ _ version_of_json_version_json).
Qed.

(** C9 (amended): [listFiles] sends, for every known file in insertion
    order, the whole file record, its name and all its version records;
    the records can be read back from the answer. *)
Theorem listFiles_sends_records d :
  serve listFiles d = (ResJson 200 (JArr (file_json <$> files d)), d) ∧
  files_of_response (serve listFiles d).1 = Some (files d).
Proof.
  rewrite listFiles_run. split; [done|]. simpl.
  apply mapM_fmap_Some, file_of_json_file_json.
Qed.

(** *** What an upload leaves alone *)

Lemma push_version_other fs n mk i f :
  fs !! i = Some f → name f ≠ n → (push_version fs n mk).2 !! i = Some f.
Proof.
  intros Hi Hne. destruct (find_file fs n) as [[j g]|] eqn:Hf.
  - rewrite (push_version_existing _ _ _ _ _ Hf). simpl.
    apply find_file_Some in Hf as (Hj & Hg & _).
    rewrite list_lookup_insert_ne; [done|]. intros ->. congruence.
  - rewrite (push_version_new _ _ _ Hf). simpl. by apply lookup_app_l_Some.
Qed.

Lemma push_version_prefix fs n mk i f :
  fs !! i = Some f →
  ∃ f', (push_version fs n mk).2 !! i = Some f' ∧ name f' = name f ∧
        versions f `prefix_of` versions f'.
Proof.
  intros Hi. destruct (find_file fs n) as [[j g]|] eqn:Hf.
  - rewrite (push_version_existing _ _ _ _ _ Hf). simpl.
    apply find_file_Some in Hf as (Hj & Hg & _).
    destruct (decide (j = i)) as [->|Hne].
    + assert (g = f) as -> by congruence.
      eexists. split; [apply list_lookup_insert_eq; by eapply lookup_lt_Some|].
      simpl. split; [done|]. by apply prefix_app_r.
    + exists f. by rewrite list_lookup_insert_ne.
  - rewrite (push_version_new _ _ _ Hf). simpl.
    exists f. split; [by apply lookup_app_l_Some|done].
Qed.

Lemma push_version_no_other fs n mk f' :
  f' ∈ (push_version fs n mk).2 → name f' ≠ n → f' ∈ fs.
Proof.
  intros Hin Hne. destruct (find_file fs n) as [[j g]|] eqn:Hf.
  - rewrite (push_version_existing _ _ _ _ _ Hf) in Hin. simpl in Hin.
    apply list_elem_of_lookup in Hin as [i Hi].
    apply list_lookup_insert_Some in Hi as [(_ & <- & _)|[_ Hi]]; [done|].
    by eapply list_elem_of_lookup_2.
  - rewrite (push_version_new _ _ _ Hf) in Hin. simpl in Hin.
    apply elem_of_app in Hin as [Hin|Hin%list_elem_of_singleton]; [done|].
    by subst f'.
Qed.

(** C10: a successful upload of a name leaves the lock entries of every
    other name as they were, keeps every file record of another name in its
    place and adds none, and keeps every earlier version record of every
    file, in place and unchanged, the versions of the name included. *)
Theorem upload_frame blobs req d v :
  (serve (upload sha256 blobs req) d).1 = uploaded v →
  let d' := (serve (upload sha256 blobs req) d).2 in
  (∀ m, m ≠ originalname req → locks d' !! m = locks d !! m) ∧
  (∀ i f, files d !! i = Some f → name f ≠ originalname req →
          files d' !! i = Some f) ∧
  (∀ f', f' ∈ files d' → name f' ≠ originalname req → f' ∈ files d) ∧
  (∀ i f, files d !! i = Some f →
          ∃ f', files d' !! i = Some f' ∧ name f' = name f ∧
                ∀ k w, versions f !! k = Some w → versions f' !! k = Some w).
Proof.
  intros (_ & buffer & fs & _ & Hp & ->)%upload_success_inv. simpl.
  assert (fs = (push_version (files d) (originalname req)
                  (new_version req (sha256 buffer))).2) as -> by (by rewrite Hp).
  split_and!.
  - done.
  - intros i f. apply push_version_other.
  - intros f'. apply push_version_no_other.
  - intros i f Hi.
    destruct (push_version_prefix (files d) (originalname req)
                (new_version req (sha256 buffer)) i f Hi) as (f' & Hf' & Hn & Hpre).
    exists f'. split_and!; [done..|].
    intros k w Hk. by eapply prefix_lookup_Some.
Qed.

(** *** Two ways a lock outlives its upload, and a name that is never free *)

(** Re-entry by the holder: the lock the caller held before the request is
    written back by the last [saveMetadata(meta)]. *)
Lemma upload_reentry_keeps_lock blobs req d e buffer :
  locks d !! originalname req = Some e →
  lockedBy e = username (user req) →
  blobs !! stored_at req = Some buffer →
  (∃ v, (serve (upload sha256 blobs req) d).1 = uploaded v) ∧
  locks (serve (upload sha256 blobs req) d).2 !! originalname req = Some e.
Proof.
  intros He Hh Hb. unfold serve.
  rewrite upload_run, (locked_by_other_holder _ _ _ _ He), Hb.
  rewrite bool_decide_eq_false_2 by (by intros ?).
  destruct (push_version _ _ _) as [v fs]. simpl. eauto.
Qed.


End Properties.

(** ** The properties on the example data *)

Lemma upload_releases_lock_witness :
  ((∃ v, (serve (upload example_digest example_blobs alice_upload) empty_metadata).1
           = uploaded v) ∧
   locks (serve (upload example_digest example_blobs alice_upload) empty_metadata).2
     !! "spec.txt" = None) ∧
  locks (serve (upload example_digest ∅ alice_upload) empty_metadata).2
    !! "spec.txt" = Some {| lockedBy := "alice"; lockedAt := "2024-01-01T10:00:00.000Z" |}.
Proof.
  assert (get_lock (locks empty_metadata) (originalname alice_upload) = Undefined)
    as Hfree by (vm_compute; reflexivity).
  split.
  - exact (upload_releases_lock example_digest example_blobs alice_upload
             empty_metadata Hfree).
  - exact (proj2 (upload_releases_lock example_digest ∅ alice_upload
                    empty_metadata Hfree)).
Defined.

(** The upload passes the lock check, hashing throws because the blob is
    not there, and the lock taken for the upload is still in
    [metadata.json] when the request is over. *)
Lemma upload_failed_hash_keeps_lock :
  locked_by_other (locks empty_metadata) (originalname alice_upload)
    (user alice_upload) = false ∧
  serve (upload example_digest ∅ alice_upload) empty_metadata =
    (ResError 500 "ENOENT",
     {| files := [];
        locks := {[ "spec.txt" := {| lockedBy := "alice";
                                     lockedAt := "2024-01-01T10:00:00.000Z" |} ]} |}) ∧
  locks (serve (upload example_digest ∅ alice_upload) empty_metadata).2
    !! originalname alice_upload ≠ None.
Proof. split_and!; [vm_compute; reflexivity..|vm_compute; discriminate]. Qed.

Lemma versions_contiguous_1_based_witness :
  versions_ok two_files ∧
  ∃ buffer, notes_blobs !! stored_at bob_notes_upload = Some buffer ∧
    (((∀ f, f ∈ files two_files → name f ≠ "notes.txt") ∧
      2 = 1 ∧
      files (serve (upload example_digest notes_blobs bob_notes_upload) two_files).2 =
        files two_files ++
        [{| name := "notes.txt";
            versions := [{| version := 1; path := "storage/files/2-spec.txt";
                            hash := example_digest buffer;
                            uploadedBy := "bob";
                            uploadedAt := "2024-01-01T10:00:04.001Z" |}] |}]) ∨
     (∃ i f,
        files two_files !! i = Some f ∧ name f = "notes.txt" ∧
        (∀ j g, files two_files !! j = Some g → j < i → name g ≠ "notes.txt") ∧
        2 = max_list (version <$> versions f) + 1 ∧
        files (serve (upload example_digest notes_blobs bob_notes_upload) two_files).2 =
          <[i := {| name := "notes.txt";
                    versions := versions f ++
                      [{| version := 2; path := "storage/files/2-spec.txt";
                          hash := example_digest buffer;
                          uploadedBy := "bob";
                          uploadedAt := "2024-01-01T10:00:04.001Z" |}] |}]>
            (files two_files))).
Proof.
  assert (versions_ok two_files) as Hok by (apply (bool_decide_unpack _); vm_compute; exact I).
  split; [exact Hok|].
  apply (proj2 (versions_contiguous_1_based example_digest notes_blobs bob_notes_upload
                  two_files Hok) 2).
  vm_compute; reflexivity.
Defined.

Lemma upload_conflict_rejected_witness :
  serve (upload example_digest example_blobs bob_upload) (spec_locked_by alice) =
    (ResJson 423 (JObj [("message", JStr "File is locked")]), spec_locked_by alice).
Proof.
  apply (upload_conflict_rejected example_digest example_blobs bob_upload
           (spec_locked_by alice) (held_by alice)); [vm_compute; reflexivity|].
  vm_compute. discriminate.
Defined.

(** No reading of the answer to a rejected upload yields the holder: bob
    gets the same answer whether alice or root holds the lock. *)
Lemma conflict_answer_does_not_name_holder :
  ¬ ∃ holder_of : Response → string,
      ∀ d req e,
        locks d !! originalname req = Some e →
        lockedBy e ≠ username (user req) →
        holder_of (serve (upload example_digest example_blobs req) d).1 = lockedBy e.
Proof.
  intros [holder_of Hcarry].
  assert (holder_of file_is_locked = "alice") as Ha.
  { apply (Hcarry (spec_locked_by alice) bob_upload (held_by alice));
      [vm_compute; reflexivity|vm_compute; discriminate]. }
  assert (holder_of file_is_locked = "root") as Hr.
  { apply (Hcarry (spec_locked_by root) bob_upload (held_by root));
      [vm_compute; reflexivity|vm_compute; discriminate]. }
  rewrite Ha in Hr. discriminate.
Qed.

Lemma uploads_in_turn_all_succeed_witness :
  (run example_digest [(example_blobs, Upload alice_upload);
                       (example_blobs, Upload bob_upload)] empty_metadata).1 =
    [uploaded 1; uploaded 2].
Proof.
  apply (uploads_in_turn_all_succeed example_digest
           [(example_blobs, alice_upload); (example_blobs, bob_upload)]
           "spec.txt" empty_metadata); [vm_compute; reflexivity|].
  repeat constructor; vm_compute; eauto.
Defined.

(** Two principals upload the same name at the same time: whichever
    handler runs first, both uploads succeed and neither is answered
    "File is locked". *)
Lemma two_principals_both_succeed :
  (run example_digest [(example_blobs, Upload alice_upload);
                       (example_blobs, Upload bob_upload)] empty_metadata).1 =
    [uploaded 1; uploaded 2] ∧
  (run example_digest [(example_blobs, Upload bob_upload);
                       (example_blobs, Upload alice_upload)] empty_metadata).1 =
    [uploaded 1; uploaded 2] ∧
  username (user alice_upload) ≠ username (user bob_upload).
Proof. split_and!; [vm_compute; reflexivity..|discriminate]. Qed.


(** C6: no lock entry exists for "constructor" in a fresh store, and yet
    the upload is answered "File is locked" and takes no lock. *)
Theorem upload_of_prototype_name_is_locked :
  locks empty_metadata !! originalname constructor_upload = None ∧
  serve (upload example_digest example_blobs constructor_upload) empty_metadata =
    (ResJson 423 (JObj [("message", JStr "File is locked")]), empty_metadata).
Proof. split; vm_compute; reflexivity. Qed.

Lemma release_idempotent_witness :
  locks (unlockFile "spec.txt" (spec_locked_by alice)).2 !! "spec.txt" = None ∧
  (unlockFile "spec.txt" empty_metadata).2 = empty_metadata ∧
  serve (adminUnlock root "spec.txt") (spec_locked_by alice) =
    (ResJson 200 (message "Unlocked"), (unlockFile "spec.txt" (spec_locked_by alice)).2).
Proof.
  destruct (release_idempotent root "spec.txt" (spec_locked_by alice) eq_refl)
    as (_ & Hgone & _ & _ & Hadmin).
  destruct (release_idempotent root "spec.txt" empty_metadata eq_refl)
    as (_ & _ & Hnoop & _ & _).
  split_and!; [exact Hgone|apply Hnoop; reflexivity|exact Hadmin].
Defined.

Lemma list_and_download_answers_witness :
  serve (download "spec.txt" (Some 2)) two_files =
    (ResDownload "storage/files/2-spec.txt", two_files) ∧
  serve (download "notes.txt" (Some 2)) two_files =
    (ResJson 404 (JObj [("message", JStr "Version not found")]), two_files) ∧
  serve (listVersions "notes.txt") two_files =
    (ResJson 200 (JArr [version_json notes_v1]), two_files) ∧
  serve (listVersions "todo.txt") two_files =
    (ResJson 404 (JObj [("message", JStr "Not found")]), two_files).
Proof.
  assert (∀ j g, files two_files !! j = Some g → j < 1 → name g ≠ "notes.txt") as Hfirst
    by (intros [|j] g Hj Hlt; [injection Hj as <-; discriminate|lia]).
  split_and!.
  - apply (proj2 (proj2 (proj2 (proj2 (list_and_download_answers "spec.txt" 2 two_files))
                           0 spec_record eq_refl eq_refl
                           ltac:(intros j g _ Hlt; lia)))
             1 (new_version bob_upload "ho" 2) eq_refl eq_refl).
    intros [|m'] w Hm Hlt; [injection Hm as <-; discriminate|lia].
  - apply (proj1 (proj2 (proj2 (proj2 (list_and_download_answers "notes.txt" 2 two_files))
                           1 notes_record eq_refl eq_refl Hfirst))).
    intros v ->%list_elem_of_singleton. discriminate.
  - apply (proj1 (proj2 (proj2 (list_and_download_answers "notes.txt" 2 two_files))
                    1 notes_record eq_refl eq_refl Hfirst)).
  - apply (list_and_download_answers "todo.txt" 1 two_files).
    intros f Hf. apply list_elem_of_lookup in Hf as [[|[|j]] Hj];
      [injection Hj as <-; discriminate..|discriminate].
Defined.

(** The answer of [GET /files] is not the list of [{name, versionCount}]:
    it has no [versionCount] and carries the version records, here with
    the path and hash of the one version of [spec.txt]. *)
Lemma listFiles_is_not_a_summary :
  (serve listFiles one_version).1 ≠ listFiles_spec one_version ∧
  files_of_response (serve listFiles one_version).1 =
    Some [{| name := "spec.txt";
             versions := [{| version := 1; path := "storage/files/1-spec.txt";
                             hash := "hi"; uploadedBy := "alice";
                             uploadedAt := "2024-01-01T10:00:00.001Z" |}] |}].
Proof. split; [vm_compute; discriminate|vm_compute; reflexivity]. Qed.

Lemma upload_frame_witness :
  ∃ f', files (serve (upload example_digest example_blobs bob_upload) one_version).2
          !! 0 = Some f' ∧
        name f' = "spec.txt" ∧
        versions f' !! 0 = Some (new_version alice_upload "hi" 1).
Proof.
  destruct (upload_frame example_digest example_blobs bob_upload one_version 2)
    as (_ & _ & _ & Hkept); [vm_compute; reflexivity|].
  destruct (Hkept 0 {| name := "spec.txt"; versions := [new_version alice_upload "hi" 1] |}
              eq_refl) as (f' & Hf' & Hn & Hvs).
  exists f'. split_and!; [exact Hf'|exact Hn|apply Hvs; reflexivity].
Defined.

(** ** Accounts, tokens and the middlewares *)

Section Accounts.

Variable sha256 : list byte → string.

Lemma Server_eta s :
  {| metadata_json := metadata_json s; users_json := users_json s |} = s.
Proof. by destruct s. Qed.

Lemma auth_Some_inv t users a :
  auth (Some t) users = inr a →
  t ≠ "" ∧ ∃ i, users !! i = Some a ∧ Users.token a = Some t ∧
                ∀ j b, users !! j = Some b → j < i → Users.token b ≠ Some t.
Proof.
  unfold auth. case_bool_decide as Ht; [done|].
  destruct (list_find _ users) as [[i u]|] eqn:Hf; [|done].
  intros [= ->]. split; [done|]. exists i. by apply list_find_Some in Hf.
Qed.

Lemma auth_first t users i a :
  t ≠ "" → users !! i = Some a → Users.token a = Some t →
  (∀ j b, users !! j = Some b → j < i → Users.token b ≠ Some t) →
  auth (Some t) users = inr a.
Proof.
  intros Ht Hi Ha Hfirst. unfold auth.
  rewrite bool_decide_eq_false_2 by done.
  assert (list_find (λ u, Users.token u = Some t) users = Some (i, a)) as ->; [|done].
  by apply list_find_Some.
Qed.

Lemma auth_unknown t users :
  t ≠ "" → (∀ a, a ∈ users → Users.token a ≠ Some t) →
  auth (Some t) users = inl (ResJson 401 (message "Invalid token")).
Proof.
  intros Ht Hnone. unfold auth. rewrite bool_decide_eq_false_2 by done.
  assert (list_find (λ u, Users.token u = Some t) users = None) as ->; [|done].
  apply list_find_None, Forall_forall. exact Hnone.
Qed.

Lemma login_found username password uuid data i u :
  list_find (λ u, Some (Users.username u) = username ∧
                  Users.password u = password) data = Some (i, u) →
  login username password uuid data =
    (ResJson 200 (JObj [("token", JStr uuid); ("role", JStr (Users.role u))]),
     <[i := {| Users.username := Users.username u; Users.password := Users.password u;
               Users.role := Users.role u; Users.token := Some uuid |}]> data).
Proof. unfold login. by intros ->. Qed.

Lemma login_success_inv username password uuid data r :
  (login username password uuid data).1 =
    ResJson 200 (JObj [("token", JStr uuid); ("role", JStr r)]) →
  ∃ i u, data !! i = Some u ∧
         Some (Users.username u) = username ∧ Users.password u = password ∧
         Users.role u = r ∧
         (∀ j b, data !! j = Some b → j < i →
                 ¬ (Some (Users.username b) = username ∧
                    Users.password b = password)) ∧
         (login username password uuid data).2 =
           <[i := {| Users.username := Users.username u;
                     Users.password := Users.password u;
                     Users.role := Users.role u; Users.token := Some uuid |}]> data.
Proof.
  unfold login.
  destruct (list_find _ data) as [[i u]|] eqn:Hf; [|done]. simpl.
  intros [= Hr]. apply list_find_Some in Hf as (Hi & [Hu Hp] & Hfirst).
  exists i, u. split_and!; done.
Qed.

(** X1: a request to a route behind [auth] without the header, or with an
    empty one, is answered 401 "No token"; with a token that no account
    carries it is answered 401 "Invalid token"; in both cases the route is
    not run and neither file on disk changes. *)
Theorem requests_without_valid_token_are_refused blobs header c s :
  (header = None ∨ header = Some "" →
     app sha256 blobs (WithToken header c) s =
       (ResJson 401 (JObj [("message", JStr "No token")]), s)) ∧
  (∀ t, header = Some t → t ≠ "" →
     (∀ a, a ∈ users_json s → Users.token a ≠ Some t) →
     app sha256 blobs (WithToken header c) s =
       (ResJson 401 (JObj [("message", JStr "Invalid token")]), s)).
Proof.
  split.
  - by intros [->| ->].
  - intros t -> Ht Hnone. unfold app. by rewrite (auth_unknown t _ Ht Hnone).
Qed.

(** X2: after a login that succeeded with a fresh, non-empty token, a
    request carrying that token is served as the account that logged in:
    the route runs with its username and role. *)
Theorem login_token_authenticates blobs blobs' username password uuid r c s :
  (app sha256 blobs (PostLogin username password uuid) s).1 =
    ResJson 200 (JObj [("token", JStr uuid); ("role", JStr r)]) →
  uuid ≠ "" →
  (∀ a, a ∈ users_json s → Users.token a ≠ Some uuid) →
  let s1 := (app sha256 blobs (PostLogin username password uuid) s).2 in
  ∃ u, Some u = username ∧
       app sha256 blobs' (WithToken (Some uuid) c) s1 =
         ((serve (route sha256 blobs' {| username := u; role := r |} c)
                 (metadata_json s)).1,
          {| metadata_json :=
               (serve (route sha256 blobs' {| username := u; role := r |} c)
                      (metadata_json s)).2;
             users_json := users_json s1 |}).
Proof.
  intros Hres Huuid Hfresh. unfold app in *.
  destruct (login username password uuid (users_json s)) as [res users'] eqn:Hl.
  simpl in Hres. subst res.
  destruct (login_success_inv username password uuid (users_json s) r)
    as (i & a & Hi & Hu & Hp & Hr & _ & Hsave); [by rewrite Hl|].
  rewrite Hl in Hsave. simpl in Hsave. subst users'.
  exists (Users.username a). split; [done|]. cbn [users_json metadata_json snd].
  set (a' := {| Users.username := Users.username a; Users.password := _;
                Users.role := _; Users.token := Some uuid |}).
  rewrite (auth_first uuid _ i a'); [|done| |done|].
  - unfold req_user. cbn [Users.username Users.role a']. rewrite Hr.
    by destruct (serve _ _).
  - apply list_lookup_insert_eq. by eapply lookup_lt_Some.
  - intros j b Hj Hlt. rewrite list_lookup_insert_ne in Hj by lia.
    apply Hfresh. by eapply list_elem_of_lookup_2.
Qed.

(** X3: a login whose body carries a username is answered 401 "Invalid
    credentials" exactly when no account has that username and the
    password of the body, an absent password being the password of an
    account without one; [users.json] and [metadata.json] are then left as
    they were. *)
Theorem login_with_wrong_credentials_is_refused blobs u password uuid s :
  ((app sha256 blobs (PostLogin (Some u) password uuid) s).1 =
     ResJson 401 (JObj [("message", JStr "Invalid credentials")])
   ↔ ∀ a, a ∈ users_json s →
          ¬ (Users.username a = u ∧ Users.password a = password)) ∧
  ((app sha256 blobs (PostLogin (Some u) password uuid) s).1 =
     ResJson 401 (JObj [("message", JStr "Invalid credentials")]) →
   (app sha256 blobs (PostLogin (Some u) password uuid) s).2 = s).
Proof.
  simpl. unfold login.
  destruct (list_find _ (users_json s)) as [[i a]|] eqn:Hf; simpl.
  - apply list_find_Some in Hf as (Hi & [[= Hu] Hp] & _). split; [|done].
    split; [done|]. intros Hnone. exfalso.
    eapply Hnone; [by eapply list_elem_of_lookup_2|done].
  - rewrite Server_eta. split; [|done].
    split; [|done]. intros _ a Ha [Hu Hp].
    apply list_find_None in Hf. rewrite Forall_forall in Hf.
    apply (Hf a Ha). by rewrite Hu.
Qed.

(** X4: a successful login replaces the token of the account: when no
    other account carries the old token and the new one differs from it, a
    request with the old token is refused with 401 afterwards. *)
Theorem login_revokes_the_old_token blobs blobs' username password uuid r old c s :
  (app sha256 blobs (PostLogin username password uuid) s).1 =
    ResJson 200 (JObj [("token", JStr uuid); ("role", JStr r)]) →
  old ≠ uuid →
  (∀ a, a ∈ users_json s → Users.token a = Some old →
        Some (Users.username a) = username ∧ Users.password a = password) →
  NoDup (Users.username <$> users_json s) →
  let s1 := (app sha256 blobs (PostLogin username password uuid) s).2 in
  ∃ msg, app sha256 blobs' (WithToken (Some old) c) s1 =
           (ResJson 401 (message msg), s1).
Proof.
  intros Hres Hold Honly Hnd. unfold app in *.
  destruct (login username password uuid (users_json s)) as [res users'] eqn:Hl.
  simpl in Hres. subst res.
  destruct (login_success_inv username password uuid (users_json s) r)
    as (i & a & Hi & Hu & Hp & Hr & _ & Hsave); [by rewrite Hl|].
  rewrite Hl in Hsave. simpl in Hsave. subst users'. cbn [users_json snd].
  destruct (decide (old = "")) as [->|Hne]; [by exists "No token"|].
  exists "Invalid token". rewrite auth_unknown; [done..|].
  intros b Hb Htok.
  apply list_elem_of_lookup in Hb as [j Hj].
  apply list_lookup_insert_Some in Hj as [(_ & <- & _)|[Hji Hj]].
  - simpl in Htok. congruence.
  - destruct (Honly b) as [Hbu _]; [by eapply list_elem_of_lookup_2|done|].
    apply Hji. eapply NoDup_lookup; [exact Hnd| |]; rewrite list_lookup_fmap.
    + by rewrite Hi.
    + rewrite Hj. simpl. congruence.
Qed.

(** X5: a login changes nothing but the token of one account with the
    username and password of the body: [metadata.json] is untouched, the
    accounts keep their places, usernames, passwords and roles, and every
    other account keeps its token. *)
Theorem login_changes_one_token_only blobs username password uuid s :
  let s1 := (app sha256 blobs (PostLogin username password uuid) s).2 in
  metadata_json s1 = metadata_json s ∧
  length (users_json s1) = length (users_json s) ∧
  (∀ j b, users_json s !! j = Some b →
     users_json s1 !! j = Some b ∨
     (Some (Users.username b) = username ∧ Users.password b = password ∧
      users_json s1 !! j =
        Some {| Users.username := Users.username b; Users.password := Users.password b;
                Users.role := Users.role b; Users.token := Some uuid |})) ∧
  (∀ j j' b b', j ≠ j' → users_json s !! j = Some b → users_json s !! j' = Some b' →
     users_json s1 !! j = Some b ∨ users_json s1 !! j' = Some b').
Proof.
  simpl. unfold login.
  destruct (list_find _ (users_json s)) as [[i u]|] eqn:Hf; simpl.
  - apply list_find_Some in Hf as (Hi & [Hu Hp] & _).
    split_and!; [done|by rewrite length_insert| |].
    + intros j b Hj. destruct (decide (i = j)) as [->|Hne].
      * right. assert (u = b) as -> by congruence.
        split_and!; [done..|]. apply list_lookup_insert_eq. by eapply lookup_lt_Some.
      * left. by rewrite list_lookup_insert_ne.
    + intros j j' b b' Hjj Hj Hj'. destruct (decide (i = j)) as [->|Hne].
      * right. by rewrite list_lookup_insert_ne.
      * left. by rewrite list_lookup_insert_ne.
  - split_and!; [done..| |]; eauto.
Qed.

(** X6: the admin routes are refused with 403 "Admin only" to every
    account whose role is not "admin": the locks are neither listed nor
    removed, and nothing on disk changes. *)
Theorem admin_routes_need_the_admin_role blobs header a n s :
  auth header (users_json s) = inr a →
  Users.role a ≠ "admin" →
  app sha256 blobs (WithToken header GetAdminLocks) s =
    (ResJson 403 (JObj [("message", JStr "Admin only")]), s) ∧
  app sha256 blobs (WithToken header (PostAdminUnlock n)) s =
    (ResJson 403 (JObj [("message", JStr "Admin only")]), s).
Proof.
  intros Ha Hrole. unfold app. rewrite Ha.
  unfold serve, route, adminLocks, adminUnlock, req_user. cbn [role].
  rewrite bool_decide_eq_true_2 by done. simpl.
  by rewrite Server_eta.
Qed.

End Accounts.

(** ** The whole application on [metadata.json] *)

Section Application_properties.

Variable sha256 : list byte → string.

(** *** What one request can do to [metadata.json] *)

Lemma handle_effect blobs rq d :
  (serve (handle sha256 blobs rq) d).2 = d ∨
  (∃ req, rq = Upload req ∧
     locked_by_other (locks d) (originalname req) (user req) = false ∧
     ((blobs !! stored_at req = None ∧
       (serve (handle sha256 blobs rq) d).2 =
         {| files := files d;
            locks := <[originalname req :=
                         {| lockedBy := username (user req);
                            lockedAt := lock_date req |}]> (locks d) |}) ∨
      (∃ buffer, blobs !! stored_at req = Some buffer ∧
         (serve (handle sha256 blobs rq) d).2 =
           {| files := (push_version (files d) (originalname req)
                          (new_version req (sha256 buffer))).2;
              locks := locks d |}))) ∨
  (∃ u n, rq = AdminUnlock u n ∧ role u = "admin" ∧
     (serve (handle sha256 blobs rq) d).2 =
       {| files := files d; locks := delete n (locks d) |}).
Proof.
  destruct rq as [req| |n|n w|n w|u n]; cbn [handle].
  - unfold serve. rewrite upload_run.
    destruct (locked_by_other _ _ _) eqn:Hl; [by left|].
    right; left. exists req. split_and!; [done..|].
    destruct (blobs !! stored_at req) as [buffer|]; [|by left].
    right. exists buffer. split; [done|]. by destruct (push_version _ _ _).
  - by left.
  - left. apply listVersions_state.
  - left. apply download_state.
  - left. apply verify_state.
  - unfold serve, adminUnlock.
    case_bool_decide as Hr; [by left|].
    right; right. exists u, n. split_and!; [done| |done].
    by destruct (decide (role u = "admin")).
Qed.

Lemma adminLocks_state u d : (serve (adminLocks u) d).2 = d.
Proof. unfold serve, adminLocks. by case_bool_decide. Qed.

(** Whatever the request and whoever sends it, [metadata.json] ends as
    some handler of the routes leaves it. *)
Lemma app_metadata blobs r s :
  ∃ rq, metadata_json (app sha256 blobs r s).2 =
          (serve (handle sha256 blobs rq) (metadata_json s)).2.
Proof.
  destruct r as [bu bp uuid|header c]; unfold app.
  - exists ListFiles. by destruct (login _ _ _ _).
  - destruct (auth header (users_json s)) as [res|a]; [by exists ListFiles|].
    destruct c as [n p tl tu| |n|n w|n w| |n]; cbn [route].
    + exists (Upload {| originalname := n; stored_at := p; user := req_user a;
                        lock_date := tl; upload_date := tu |}).
      cbn [handle]. by destruct (serve _ _).
    + by exists ListFiles.
    + exists (ListVersions n). cbn [handle]. by destruct (serve _ _).
    + exists (Download n w). cbn [handle]. by destruct (serve _ _).
    + exists (Verify n w). cbn [handle]. by destruct (serve _ _).
    + exists ListFiles. pose proof (adminLocks_state (req_user a) (metadata_json s)).
      by destruct (serve (adminLocks _) _).
    + exists (AdminUnlock (req_user a) n). cbn [handle]. by destruct (serve _ _).
Qed.

Lemma app_run_invariant (P : Metadata → Prop) :
  (∀ blobs rq d, P d → P (serve (handle sha256 blobs rq) d).2) →
  ∀ reqs s, P (metadata_json s) → P (metadata_json (app_run sha256 reqs s).2).
Proof.
  intros Hstep reqs. induction reqs as [|[blobs r] reqs IH]; intros s Hs; [done|].
  cbn [app_run]. destruct (app_metadata blobs r s) as [rq Hrq].
  destruct (app sha256 blobs r s) as [res s1]. simpl in Hrq.
  specialize (IH s1). rewrite Hrq in IH.
  specialize (IH (Hstep blobs rq _ Hs)).
  by destruct (app_run sha256 reqs s1).
Qed.


(** *** File names stay unique, records are never empty *)

Lemma push_version_names fs n mk :
  name <$> (push_version fs n mk).2 =
    match find_file fs n with
    | Some _ => name <$> fs
    | None => (name <$> fs) ++ [n]
    end.
Proof.
  destruct (find_file fs n) as [[i f]|] eqn:Hf.
  - rewrite (push_version_existing _ _ _ _ _ Hf). cbn [snd].
    apply find_file_Some in Hf as (Hi & Hn & _).
    rewrite list_fmap_insert. cbn [name].
    apply list_insert_id. by rewrite list_lookup_fmap, Hi, <-Hn.
  - rewrite (push_version_new _ _ _ Hf). cbn [snd]. by rewrite fmap_app.
Qed.

Lemma push_version_names_unique fs n mk :
  NoDup (name <$> fs) → NoDup (name <$> (push_version fs n mk).2).
Proof.
  intros Hnd. rewrite push_version_names.
  destruct (find_file fs n) as [[i f]|] eqn:Hf; [done|].
  apply NoDup_app. split_and!; [done| |apply NoDup_singleton].
  intros m Hm ->%list_elem_of_singleton.
  apply list_elem_of_fmap in Hm as (f & Hn & Hin).
  by eapply find_file_None.
Qed.

Lemma push_version_never_empty fs n mk :
  Forall (λ f, versions f ≠ []) fs →
  Forall (λ f, versions f ≠ []) (push_version fs n mk).2.
Proof.
  intros Hfs. destruct (find_file fs n) as [[i f]|] eqn:Hf.
  - rewrite (push_version_existing _ _ _ _ _ Hf). cbn [snd].
    apply Forall_insert; [done|]. cbn [versions]. by intros []%app_eq_nil.
  - rewrite (push_version_new _ _ _ Hf). cbn [snd].
    apply Forall_app. split; [done|]. by apply Forall_singleton.
Qed.

Ltac by_handle_effect blobs rq d :=
  destruct (handle_effect blobs rq d)
    as [->|[(req & -> & Hfree & [[Hb ->]|(buffer & Hb & ->)])|(u & n & -> & Hrole & ->)]];
  cbn [files locks].

(** X7: no request makes two file records share a name: from a store
    whose file names are unique (the empty one is), every store the
    application reaches has unique file names, so that each record is the
    one [find] returns for its name. *)
Theorem file_names_stay_unique reqs s :
  names_unique (metadata_json s) →
  let d' := metadata_json (app_run sha256 reqs s).2 in
  names_unique d' ∧
  ∀ f, f ∈ files d' → ∃ i, find_file (files d') (name f) = Some (i, f).
Proof.
  intros Hs.
  assert (names_unique (metadata_json (app_run sha256 reqs s).2)) as Hnd.
  { apply (app_run_invariant names_unique); [|done].
    intros blobs rq d Hd. unfold names_unique in *.
    by_handle_effect blobs rq d; try done.
    by apply push_version_names_unique. }
  split; [done|]. intros f [i Hi]%list_elem_of_lookup. exists i.
  apply find_file_Some. split_and!; [done..|].
  intros j g Hj Hlt Hname. assert (j = i); [|lia].
  eapply NoDup_lookup; [exact Hnd| |]; rewrite list_lookup_fmap.
  - by rewrite Hj.
  - rewrite Hi. simpl. by rewrite Hname.
Qed.

(** X8: a file record is created with its first version and versions are
    only added: from a store without empty record, no store the
    application reaches lists a file without version. *)
Theorem file_records_are_never_empty reqs s :
  never_empty (metadata_json s) →
  ∀ f, f ∈ files (metadata_json (app_run sha256 reqs s).2) → versions f ≠ [].
Proof.
  intros Hs. apply Forall_forall.
  apply (app_run_invariant never_empty); [|done].
  intros blobs rq d Hd. unfold never_empty in *.
  by_handle_effect blobs rq d; try done.
  by apply push_version_never_empty.
Qed.

(** *** History is append-only *)

Lemma history_kept_refl d : history_kept d d.
Proof. intros i f Hi. by exists f. Qed.

Lemma history_kept_trans d1 d2 d3 :
  history_kept d1 d2 → history_kept d2 d3 → history_kept d1 d3.
Proof.
  intros H12 H23 i f Hi.
  destruct (H12 i f Hi) as (f2 & Hi2 & Hn2 & Hp2).
  destruct (H23 i f2 Hi2) as (f3 & Hi3 & Hn3 & Hp3).
  exists f3. split_and!; [done|congruence|by etrans].
Qed.

Lemma handle_history_kept blobs rq d :
  history_kept d (serve (handle sha256 blobs rq) d).2.
Proof.
  by_handle_effect blobs rq d; try apply history_kept_refl; try (intros i f Hi; by exists f).
  intros i f Hi. by apply push_version_prefix.
Qed.

Lemma app_run_history_kept reqs s :
  history_kept (metadata_json s) (metadata_json (app_run sha256 reqs s).2).
Proof.
  revert s. induction reqs as [|[blobs r] reqs IH]; intros s; [apply history_kept_refl|].
  cbn [app_run]. destruct (app_metadata blobs r s) as [rq Hrq].
  destruct (app sha256 blobs r s) as [res s1]. simpl in Hrq.
  specialize (IH s1). destruct (app_run sha256 reqs s1) as [ress s2].
  eapply history_kept_trans; [|exact IH]. rewrite Hrq. apply handle_history_kept.
Qed.

(** X9: the history is append-only: whatever requests are served, every
    file record stays at its index under its name and every version record
    stays at its index, unchanged; no route removes or rewrites a file or
    a version. *)
Theorem history_is_append_only reqs s i f k v :
  files (metadata_json s) !! i = Some f →
  versions f !! k = Some v →
  ∃ f', files (metadata_json (app_run sha256 reqs s).2) !! i = Some f' ∧
        name f' = name f ∧ versions f' !! k = Some v.
Proof.
  intros Hi Hk.
  destruct (app_run_history_kept reqs s i f Hi) as (f' & Hi' & Hn & Hpre).
  exists f'. split_and!; [done..|]. by eapply prefix_lookup_Some.
Qed.

(** *** Names that [Object.prototype] defines *)





(** *** Refusals and locks *)

(** X11: a request answered with a 4xx status (401, 403, 404, 423) has
    changed nothing: [metadata.json] and [users.json] are as they were. *)
Theorem refused_requests_change_nothing blobs r s st body :
  (app sha256 blobs r s).1 = ResJson st body →
  (400 ≤ st)%nat →
  (app sha256 blobs r s).2 = s.
Proof.
  destruct r as [bu bp uuid|header c]; unfold app.
  - unfold login. destruct (list_find _ (users_json s)) as [[i u]|]; cbn [fst snd].
    + intros [= <- _] Hst. lia.
    + intros _ _. apply Server_eta.
  - destruct (auth header (users_json s)) as [res|a]; [done|].
    destruct c as [n p tl tu| |n|n w|n w| |n]; cbn [route].
    + unfold serve. rewrite upload_run. cbn [originalname stored_at user].
      destruct (locked_by_other _ _ _); [intros _ _; apply Server_eta|].
      destruct (blobs !! p); [|done].
      destruct (push_version _ _ _). cbn [fst]. intros [= <- _] Hst. lia.
    + rewrite listFiles_run. cbn [fst]. intros [= <- _] Hst. lia.
    + rewrite listVersions_run. intros _ _. apply Server_eta.
    + rewrite download_run. intros _ _. apply Server_eta.
    + rewrite verify_run. intros _ _. apply Server_eta.
    + pose proof (adminLocks_state (req_user a) (metadata_json s)) as Hs.
      destruct (serve (adminLocks _) _) as [res d']. simpl in Hs. subst d'.
      intros _ _. apply Server_eta.
    + unfold serve, adminUnlock. case_bool_decide.
      * intros _ _. apply Server_eta.
      * cbn [fst]. intros [= <- _] Hst. lia.
Qed.

(** X12: the lock table changes in two ways only: an upload that passed
    the lock check and whose hashing threw leaves the lock it took, under
    the name of the file and held by the uploader; an unlock by an admin
    deletes the entry of the name.  Every other request, a successful
    upload included, leaves the lock table as it found it. *)
Theorem locks_change_in_two_ways_only blobs r s :
  locks (metadata_json (app sha256 blobs r s).2) = locks (metadata_json s) ∨
  (∃ header a n p tl tu,
     r = WithToken header (PostUpload n p tl tu) ∧
     auth header (users_json s) = inr a ∧
     blobs !! p = None ∧
     (app sha256 blobs r s).1 = ResError 500 "ENOENT" ∧
     locks (metadata_json (app sha256 blobs r s).2) =
       <[n := {| lockedBy := Users.username a; lockedAt := tl |}]>
         (locks (metadata_json s))) ∨
  (∃ header a n,
     r = WithToken header (PostAdminUnlock n) ∧
     auth header (users_json s) = inr a ∧
     Users.role a = "admin" ∧
     locks (metadata_json (app sha256 blobs r s).2) =
       delete n (locks (metadata_json s))).
Proof.
  destruct r as [bu bp uuid|header c]; unfold app.
  - left. by destruct (login _ _ _ _).
  - destruct (auth header (users_json s)) as [res|a] eqn:Ha; [by left|].
    destruct c as [n p tl tu| |n|n w|n w| |n]; cbn [route].
    + unfold serve. rewrite upload_run. cbn [originalname stored_at user lock_date].
      destruct (locked_by_other _ _ _); [by left|].
      destruct (blobs !! p) eqn:Hb.
      * left. by destruct (push_version _ _ _).
      * right; left. by exists header, a, n, p, tl, tu.
    + by left.
    + left. by rewrite listVersions_run.
    + left. by rewrite download_run.
    + left. by rewrite verify_run.
    + left. pose proof (adminLocks_state (req_user a) (metadata_json s)) as Hs.
      destruct (serve (adminLocks _) _) as [res d']. simpl in Hs. by subst d'.
    + unfold serve, adminUnlock. case_bool_decide as Hr; [by left|].
      right; right. by exists header, a, n.
Qed.

End Application_properties.

(** ** Uploads, locks and integrity checks in sequence *)

Section Sequences.

Variable sha256 : list byte → string.



(** X15: what an upload recorded can be fetched: after a successful
    upload that returned version [v], from a store with contiguous version
    lists, the download of [v] sends the blob the upload stored, and the
    version list of the file is the earlier one followed by the new record,
    which carries the digest of that blob and the uploader's name. *)
Theorem uploaded_version_can_be_fetched blobs req d v :
  versions_ok d →
  (serve (upload sha256 blobs req) d).1 = uploaded v →
  let d' := (serve (upload sha256 blobs req) d).2 in
  serve (download (originalname req) (Some v)) d' = (ResDownload (stored_at req), d') ∧
  ∃ buffer, blobs !! stored_at req = Some buffer ∧
    serve (listVersions (originalname req)) d' =
      (ResJson 200
         (JArr (version_json <$>
                  versions_of d (originalname req) ++
                  [{| version := v; path := stored_at req; hash := sha256 buffer;
                      uploadedBy := username (user req);
                      uploadedAt := upload_date req |}])), d').
Proof.
  intros Hd Hv. pose proof (upload_versions_ok sha256 blobs req d Hd) as Hok.
  destruct (upload_success_inv sha256 _ _ _ _ Hv) as (_ & buffer & fs & Hb & Hp & Hd').
  rewrite Hd' in *. cbn zeta.
  destruct (find_file_push (files d) (originalname req)
              (new_version req (sha256 buffer))) as [i Hi].
  rewrite Hp in Hi. cbn [fst snd] in Hi. rewrite versions_of_files in Hi.
  set (file := {| name := originalname req; versions := _ |}) in Hi.
  assert (contiguous (versions file)) as Hc.
  { apply find_file_Some in Hi as (Hi & _).
    by eapply (Forall_lookup_1 _ _ _ _ Hok). }
  pose proof (find_version_stored (versions file) (new_version req (sha256 buffer) v)
                (contiguous_NoDup _ Hc)) as Hfv.
  change (version (new_version req (sha256 buffer) v)) with v in Hfv.
  split.
  - rewrite download_run. cbn [files]. rewrite Hi, Hfv; [done|].
    apply elem_of_app; right. by apply list_elem_of_singleton.
  - exists buffer. split; [done|].
    rewrite listVersions_run. cbn [files]. by rewrite Hi.
Qed.

(** X16: how [verify] fails: "Not found" for a name without record,
    "Version not found" when no record of the file has the wanted number,
    in particular when the parameter is not a number, and a 500 when the
    blob of the version cannot be read; [metadata.json] is unchanged in
    every case. *)
Theorem verify_failures blobs n wanted d :
  ((∀ f, f ∈ files d → name f ≠ n) →
     serve (verify sha256 blobs n wanted) d =
       (ResJson 404 (JObj [("message", JStr "Not found")]), d)) ∧
  (∀ i f, find_file (files d) n = Some (i, f) →
     (wanted = None ∨ ∀ v, v ∈ versions f → Some (version v) ≠ wanted) →
     serve (verify sha256 blobs n wanted) d =
       (ResJson 404 (JObj [("message", JStr "Version not found")]), d)) ∧
  (∀ i f v, find_file (files d) n = Some (i, f) →
     find_version (versions f) wanted = Some v →
     blobs !! path v = None →
     serve (verify sha256 blobs n wanted) d = (ResError 500 "ENOENT", d)).
Proof.
  rewrite verify_run. split_and!.
  - by intros ->%find_file_None.
  - intros i f -> Hw.
    assert (find_version (versions f) wanted = None) as ->; [|done].
    destruct Hw as [->|Hw]; [done|].
    destruct wanted as [k|]; [|done].
    apply find_version_None. intros v Hv Hk. apply (Hw v Hv). by rewrite Hk.
  - by intros i f v -> -> ->.
Qed.

(** X17: [lockFile] takes the lock without looking: whoever held it, the
    entry of the name is the new one ([isLocked] returns it), except for
    the name "__proto__" without entry, where the assignment saves nothing
    and [isLocked] keeps returning the inherited object; other names and
    the files are untouched; [unlockFile] after [lockFile] on a name
    without entry gives the store back; and after [unlockFile] the lookup
    of [isLocked] is falsy unless [Object.prototype] defines the name. *)
Theorem lock_primitives_compose n u now d :
  (n ≠ "__proto__" ∨ is_Some (locks d !! n) →
     (isLocked n (lockFile n u now d).2).1 =
       Returned (Own {| lockedBy := username u; lockedAt := now |})) ∧
  (n = "__proto__" → locks d !! n = None →
     (lockFile n u now d).2 = d ∧
     (isLocked n (lockFile n u now d).2).1 = Returned Inherited) ∧
  files (lockFile n u now d).2 = files d ∧
  (∀ m, m ≠ n → locks (lockFile n u now d).2 !! m = locks d !! m) ∧
  (locks d !! n = None → (unlockFile n (lockFile n u now d).2).2 = d) ∧
  (isLocked n (unlockFile n d).2).1 =
    Returned (if bool_decide (n ∈ Object_prototype) then Inherited else Undefined).
Proof.
  rewrite lockFile_run, !unlockFile_run. cbn [fst snd files locks].
  unfold isLocked, mbind, handler_bind, mret, handler_ret, loadMetadata, get_lock.
  cbn [fst snd files locks]. split_and!.
  - intros Hn. by rewrite set_lock_own, lookup_insert_eq.
  - intros -> Hn. rewrite set_lock_proto by done. rewrite Hn.
    split; [apply Metadata_eta|done].
  - done.
  - intros m Hm. unfold set_lock. case_bool_decide; [done|].
    by rewrite lookup_insert_ne.
  - intros Hn. unfold set_lock. case_bool_decide.
    + rewrite delete_id by done. apply Metadata_eta.
    + rewrite delete_insert_id by done. apply Metadata_eta.
  - by rewrite lookup_delete_eq.
Qed.

(** X18: to an admin, [GET /admin/locks] sends an object with exactly one
    member per lock entry, under the name of the file, carrying its holder
    and date; [metadata.json] is unchanged. *)
Theorem admin_sees_every_lock u d :
  role u = "admin" →
  ∃ members,
    serve (adminLocks u) d = (ResJson 200 (JObj members), d) ∧
    NoDup members.*1 ∧
    ∀ k j, (k, j) ∈ members ↔
      ∃ e, locks d !! k = Some e ∧
           j = JObj [("lockedBy", JStr (lockedBy e)); ("lockedAt", JStr (lockedAt e))].
Proof.
  intros Hadmin. exists (prod_map id lock_json <$> map_to_list (locks d)). split_and!.
  - unfold serve, adminLocks. by rewrite bool_decide_eq_false_2 by (by intros ?).
  - rewrite <-list_fmap_compose.
    rewrite (list_fmap_ext _ fst (map_to_list (locks d))) by (by intros ? []).
    apply NoDup_fst_map_to_list.
  - intros k j. rewrite list_elem_of_fmap. split.
    + intros ([k' e] & [= -> ->] & Hin%elem_of_map_to_list). by exists e.
    + intros (e & He & ->). exists (k, e). split; [done|].
      by apply elem_of_map_to_list.
Qed.

End Sequences.

(** ** The name of a stored blob *)

Lemma string_of_uint_dash d d' s s' :
  NilEmpty.string_of_uint d +:+ "-" +:+ s = NilEmpty.string_of_uint d' +:+ "-" +:+ s' →
  d = d' ∧ s = s'.
Proof.
  revert d'. induction d as [|d IH|d IH|d IH|d IH|d IH|d IH|d IH|d IH|d IH|d IH];
    intros [|d'|d'|d'|d'|d'|d'|d'|d'|d'|d']; simpl; intros [= H]; try done;
    by destruct (IH d' H) as [-> ->].
Qed.

(** X19: the name under which multer stores a blob tells the time and the
    original name apart: two uploads get the same stored name only when
    they have the same original name and the same millisecond. *)
Theorem storage_filename_inj now now' n n' :
  storage_filename now n = storage_filename now' n' → now = now' ∧ n = n'.
Proof.
  unfold storage_filename. intros [Hd ->]%string_of_uint_dash.
  split; [|done]. by apply DecimalN.Unsigned.to_uint_inj.
Qed.

(** ** The further properties on the example data *)

Ltac by_compute := apply (bool_decide_unpack _); vm_compute; exact I.

Lemma requests_without_valid_token_are_refused_witness :
  app example_digest example_blobs (WithToken None GetFiles) fresh_server =
    (ResJson 401 (JObj [("message", JStr "No token")]), fresh_server) ∧
  app example_digest example_blobs (WithToken (Some "token-z") GetFiles) fresh_server =
    (ResJson 401 (JObj [("message", JStr "Invalid token")]), fresh_server).
Proof.
  split.
  - apply (proj1 (requests_without_valid_token_are_refused example_digest
                    example_blobs None GetFiles fresh_server)). by left.
  - apply (proj2 (requests_without_valid_token_are_refused example_digest
                    example_blobs (Some "token-z") GetFiles fresh_server) "token-z");
      [reflexivity|discriminate|].
    apply Forall_forall. by_compute.
Defined.

Lemma login_token_authenticates_witness :
  ∃ u, Some u = Some "bob" ∧
    app example_digest example_blobs (WithToken (Some "token-b") GetFiles)
      (app example_digest example_blobs
         (PostLogin (Some "bob") (Some "builder") "token-b") fresh_server).2 =
    ((serve (route example_digest example_blobs {| username := u; role := "user" |}
               GetFiles) empty_metadata).1,
     {| metadata_json :=
          (serve (route example_digest example_blobs {| username := u; role := "user" |}
                    GetFiles) empty_metadata).2;
        users_json :=
          users_json (app example_digest example_blobs
                        (PostLogin (Some "bob") (Some "builder") "token-b")
                        fresh_server).2 |}).
Proof.
  apply (login_token_authenticates example_digest example_blobs example_blobs
           (Some "bob") (Some "builder") "token-b" "user" GetFiles fresh_server);
    [vm_compute; reflexivity|discriminate|].
  apply Forall_forall. by_compute.
Defined.

Lemma login_with_wrong_credentials_is_refused_witness :
  app example_digest example_blobs (PostLogin (Some "alice") (Some "rabbit") "token-n")
      server_with_guest =
    (ResJson 401 (JObj [("message", JStr "Invalid credentials")]), server_with_guest) ∧
  app example_digest example_blobs (PostLogin (Some "alice") None "token-n")
      server_with_guest =
    (ResJson 401 (JObj [("message", JStr "Invalid credentials")]), server_with_guest) ∧
  (app example_digest example_blobs (PostLogin (Some "guest") None "token-n")
       server_with_guest).1 ≠
    ResJson 401 (JObj [("message", JStr "Invalid credentials")]).
Proof.
  destruct (login_with_wrong_credentials_is_refused example_digest example_blobs
              "alice" (Some "rabbit") "token-n" server_with_guest) as (Hwrong & Hsame).
  destruct (login_with_wrong_credentials_is_refused example_digest example_blobs
              "alice" None "token-n" server_with_guest) as (Hmissing & Hsame').
  destruct (login_with_wrong_credentials_is_refused example_digest example_blobs
              "guest" None "token-n" server_with_guest) as (Hguest & _).
  assert (∀ a, a ∈ users_json server_with_guest →
            ¬ (Users.username a = "alice" ∧ Users.password a = Some "rabbit")) as Hnone
    by (apply (proj1 (Forall_forall
                        (λ a, ¬ (Users.username a = "alice" ∧
                                 Users.password a = Some "rabbit")) _)); by_compute).
  assert (∀ a, a ∈ users_json server_with_guest →
            ¬ (Users.username a = "alice" ∧ Users.password a = None)) as Hnone'
    by (apply (proj1 (Forall_forall
                        (λ a, ¬ (Users.username a = "alice" ∧
                                 Users.password a = None)) _)); by_compute).
  split_and!.
  - apply injective_projections;
      [exact (proj2 Hwrong Hnone)|exact (Hsame (proj2 Hwrong Hnone))].
  - apply injective_projections;
      [exact (proj2 Hmissing Hnone')|exact (Hsame' (proj2 Hmissing Hnone'))].
  - intros Hrefused. apply (proj1 Hguest Hrefused guest_account); [|done].
    apply list_elem_of_lookup. by exists 1.
Defined.

Lemma login_revokes_the_old_token_witness :
  ∃ msg,
    app example_digest example_blobs (WithToken (Some "token-a") GetFiles)
      (app example_digest example_blobs
         (PostLogin (Some "alice") (Some "wonderland") "token-n") fresh_server).2 =
    (ResJson 401 (message msg),
     (app example_digest example_blobs
        (PostLogin (Some "alice") (Some "wonderland") "token-n") fresh_server).2).
Proof.
  apply (login_revokes_the_old_token example_digest example_blobs example_blobs
           (Some "alice") (Some "wonderland") "token-n" "user" "token-a" GetFiles
           fresh_server);
    [vm_compute; reflexivity|discriminate| |by_compute].
  apply (proj1 (Forall_forall
                  (λ a, Users.token a = Some "token-a" →
                        Some (Users.username a) = Some "alice" ∧
                        Users.password a = Some "wonderland")
                  (users_json fresh_server))).
  by_compute.
Defined.

Lemma login_changes_one_token_only_witness :
  metadata_json (app example_digest example_blobs
                   (PostLogin (Some "bob") (Some "builder") "token-b") fresh_server).2 =
    empty_metadata ∧
  users_json (app example_digest example_blobs
                (PostLogin (Some "bob") (Some "builder") "token-b") fresh_server).2
    !! 0 = Some alice_account.
Proof.
  destruct (login_changes_one_token_only example_digest example_blobs
              (Some "bob") (Some "builder") "token-b" fresh_server)
    as (Hmeta & _ & Heach & _).
  split; [exact Hmeta|].
  destruct (Heach 0 alice_account eq_refl) as [Hkept|(Hname & _)];
    [exact Hkept|discriminate Hname].
Defined.

Lemma admin_routes_need_the_admin_role_witness :
  app example_digest example_blobs (WithToken (Some "token-a") GetAdminLocks)
      fresh_server =
    (ResJson 403 (JObj [("message", JStr "Admin only")]), fresh_server) ∧
  app example_digest example_blobs (WithToken (Some "token-a") (PostAdminUnlock "spec.txt"))
      fresh_server =
    (ResJson 403 (JObj [("message", JStr "Admin only")]), fresh_server).
Proof.
  apply (admin_routes_need_the_admin_role example_digest example_blobs
           (Some "token-a") alice_account "spec.txt" fresh_server);
    [vm_compute; reflexivity|discriminate].
Defined.

Lemma file_names_stay_unique_witness :
  names_unique (metadata_json (app_run example_digest example_session fresh_server).2) ∧
  ∀ f, f ∈ files (metadata_json (app_run example_digest example_session fresh_server).2) →
       ∃ i, find_file
              (files (metadata_json (app_run example_digest example_session
                                       fresh_server).2)) (name f) = Some (i, f).
Proof.
  apply (file_names_stay_unique example_digest example_session fresh_server).
  by_compute.
Defined.

Lemma file_records_are_never_empty_witness :
  never_empty (metadata_json (app_run example_digest example_session fresh_server).2).
Proof.
  apply Forall_forall.
  apply (file_records_are_never_empty example_digest example_session fresh_server).
  by_compute.
Defined.

Lemma history_is_append_only_witness :
  ∃ f', files (metadata_json (app_run example_digest example_session
                                server_with_history).2) !! 0 = Some f' ∧
        name f' = "spec.txt" ∧
        versions f' !! 0 = Some (new_version alice_upload "hi" 1).
Proof.
  apply (history_is_append_only example_digest example_session server_with_history 0
           {| name := "spec.txt"; versions := [new_version alice_upload "hi" 1] |}
           0 (new_version alice_upload "hi" 1)); reflexivity.
Defined.


Lemma refused_requests_change_nothing_witness :
  (app example_digest example_blobs (WithToken (Some "token-a") (GetVersions "todo.txt"))
       server_with_history).2 = server_with_history.
Proof.
  apply (refused_requests_change_nothing example_digest example_blobs
           (WithToken (Some "token-a") (GetVersions "todo.txt")) server_with_history
           404 (JObj [("message", JStr "Not found")]));
    [vm_compute; reflexivity|lia].
Defined.



Lemma uploaded_version_can_be_fetched_witness :
  serve (download "spec.txt" (Some 2))
        (serve (upload example_digest example_blobs bob_upload) one_version).2 =
    (ResDownload "storage/files/2-spec.txt",
     (serve (upload example_digest example_blobs bob_upload) one_version).2).
Proof.
  assert (versions_ok one_version) as Hok by by_compute.
  apply (proj1 (uploaded_version_can_be_fetched example_digest example_blobs bob_upload
                  one_version 2 Hok eq_refl)).
Defined.

Lemma verify_failures_witness :
  serve (verify example_digest ∅ "spec.txt" (Some 1)) one_version =
    (ResError 500 "ENOENT", one_version) ∧
  serve (verify example_digest example_blobs "spec.txt" None) one_version =
    (ResJson 404 (JObj [("message", JStr "Version not found")]), one_version) ∧
  serve (verify example_digest example_blobs "todo.txt" (Some 1)) one_version =
    (ResJson 404 (JObj [("message", JStr "Not found")]), one_version).
Proof.
  split_and!.
  - apply (proj2 (proj2 (verify_failures example_digest ∅ "spec.txt" (Some 1) one_version))
             0 {| name := "spec.txt"; versions := [new_version alice_upload "hi" 1] |}
             (new_version alice_upload "hi" 1)); vm_compute; reflexivity.
  - apply (proj1 (proj2 (verify_failures example_digest example_blobs "spec.txt" None
                           one_version))
             0 {| name := "spec.txt"; versions := [new_version alice_upload "hi" 1] |});
      [vm_compute; reflexivity|by left].
  - apply (proj1 (verify_failures example_digest example_blobs "todo.txt" (Some 1)
                    one_version)).
    apply Forall_forall. by_compute.
Defined.

Lemma lock_primitives_compose_witness :
  (isLocked "spec.txt" (lockFile "spec.txt" bob "2024-01-01T11:00:00.000Z"
                          (spec_locked_by alice)).2).1 =
    Returned (Own {| lockedBy := "bob"; lockedAt := "2024-01-01T11:00:00.000Z" |}) ∧
  ((lockFile "__proto__" bob "2024-01-01T11:00:00.000Z" empty_metadata).2 =
     empty_metadata ∧
   (isLocked "__proto__" (lockFile "__proto__" bob "2024-01-01T11:00:00.000Z"
                            empty_metadata).2).1 = Returned Inherited) ∧
  (unlockFile "spec.txt" (lockFile "spec.txt" bob "2024-01-01T11:00:00.000Z"
                            empty_metadata).2).2 = empty_metadata.
Proof.
  destruct (lock_primitives_compose "spec.txt" bob "2024-01-01T11:00:00.000Z"
              (spec_locked_by alice)) as (Hheld & _).
  destruct (lock_primitives_compose "__proto__" bob "2024-01-01T11:00:00.000Z"
              empty_metadata) as (_ & Hproto & _).
  destruct (lock_primitives_compose "spec.txt" bob "2024-01-01T11:00:00.000Z"
              empty_metadata) as (_ & _ & _ & _ & Hback & _).
  split; [apply Hheld; left; discriminate|].
  split; [apply Hproto; reflexivity|apply Hback; reflexivity].
Defined.

Lemma admin_sees_every_lock_witness :
  ∃ members,
    serve (adminLocks root) (spec_locked_by alice) =
      (ResJson 200 (JObj members), spec_locked_by alice) ∧
    NoDup members.*1 ∧
    ∀ k j, (k, j) ∈ members ↔
      ∃ e, locks (spec_locked_by alice) !! k = Some e ∧
           j = JObj [("lockedBy", JStr (lockedBy e)); ("lockedAt", JStr (lockedAt e))].
Proof. apply (admin_sees_every_lock root (spec_locked_by alice)). reflexivity. Defined.

Lemma storage_filename_inj_witness :
  storage_filename 1704103200000 "spec.txt" = "1704103200000-spec.txt" ∧
  (1704103200000%N = 1704103200000%N ∧ "spec.txt" = "spec.txt").
Proof.
  split; [vm_compute; reflexivity|].
  apply (storage_filename_inj 1704103200000 1704103200000 "spec.txt" "spec.txt").
  reflexivity.
Defined.

Lemma verify_after_upload_witness :
  (serve (verify example_digest tampered_blobs "spec.txt" (Some 1))
         (serve (upload example_digest example_blobs alice_upload) empty_metadata).2).1 =
    ResJson 200 (JObj [("stored", JStr "hi"); ("current", JStr "ho");
                       ("valid", JBool false)]).
Proof.
  assert (versions_ok empty_metadata) as Hok by by_compute.
  apply (verify_after_upload example_digest example_blobs tampered_blobs alice_upload
           empty_metadata 1 [x68; x69] [x68; x6f] Hok); vm_compute; reflexivity.
Defined.
